(** * MCP tool servers: the filesystem and weather request handlers

    A shallow embedding of the two TypeScript servers of the repository
    (the filesystem server, [src/servers/filesystem/index.ts], and the
    weather server) together with the fragment of the JavaScript run time
    their handlers rely on: property lookup along the prototype chain,
    truthiness, [String.prototype.toLowerCase], string conversion,
    [JSON.stringify(value, null, 2)], exceptions with [try]/[catch], and
    [await] on the [fs/promises] calls.

    Conventions.
    - A JavaScript string is a [string]; each character stands for one
      UTF-16 code unit below 256.
    - A number is an integer ([VNum]) or [NaN]; integers are meant to stay
      in the range that [Number] prints in plain decimal notation.
    - Every value thrown inside the handlers is an [Error] instance (the
      handlers' own [new Error], the engine's [TypeError], a rejection of
      [fs/promises]); [JsError] keeps its name and message.  The wording
      of the engine's [TypeError] messages is V8's. *)

From Stdlib Require Import String Ascii List ZArith Lia Bool.
From Stdlib Require Import DecimalString DecimalZ DecimalPos.
Import ListNotations.
Local Open Scope string_scope.
Local Open Scope Z_scope.
Set Warnings "-register-all".

(* ================================================================== *)
(** ** JavaScript values and the run-time operations the servers use   *)
(* ================================================================== *)

Module JS.

(** Values.  [VObj] is a plain object (own enumerable properties in
    insertion order, prototype [Object.prototype]); [VObjectPrototype] is
    [Object.prototype] itself and [VBuiltin] the built-in function of
    that name, both reachable from a plain object through the prototype
    chain. *)
Inductive Value : Type :=
| VUndefined
| VNull
| VBool (b : bool)
| VNum (n : Z)
| VNaN
| VStr (s : string)
| VArr (items : list Value)
| VObj (props : list (string * Value))
| VObjectPrototype
| VBuiltin (name : string).

Record JsError := mkError { errName : string; message : string }.

Definition Error (msg : string) : JsError := mkError "Error" msg.
Definition TypeError (msg : string) : JsError := mkError "TypeError" msg.

(** Completion of a run-time operation: a value or a thrown error. *)
Inductive Completion (A : Type) : Type :=
| Normal (a : A)
| Abrupt (e : JsError).
Arguments Normal {A} a.
Arguments Abrupt {A} e.

(** [ToBoolean]. *)
Definition truthy (v : Value) : bool :=
  match v with
  | VUndefined | VNull | VNaN => false
  | VBool b => b
  | VNum n => negb (n =? 0)
  | VStr s => negb (String.eqb s EmptyString)
  | VArr _ | VObj _ | VObjectPrototype | VBuiltin _ => true
  end.

(** [String.prototype.toLowerCase] on code units below 256: the letters
    A-Z and the Latin-1 capitals U+00C0-U+00DE (U+00D7 excepted) move up
    by 32. *)
Definition lowerChar (c : ascii) : ascii :=
  let n := nat_of_ascii c in
  if (((65 <=? n) && (n <=? 90))
      || ((192 <=? n) && (n <=? 222) && negb (n =? 215)))%nat
  then ascii_of_nat (n + 32) else c.

Fixpoint toLowerCase (s : string) : string :=
  match s with
  | EmptyString => EmptyString
  | String c rest => String (lowerChar c) (toLowerCase rest)
  end.

(** Own property of a plain object. *)
Fixpoint ownProp (props : list (string * Value)) (key : string) : option Value :=
  match props with
  | [] => None
  | (k, v) :: rest => if String.eqb k key then Some v else ownProp rest key
  end.

(** The properties of [Object.prototype]. *)
Definition objectPrototypeNames : list string :=
  [ "constructor"; "__defineGetter__"; "__defineSetter__"; "hasOwnProperty";
    "__lookupGetter__"; "__lookupSetter__"; "isPrototypeOf";
    "propertyIsEnumerable"; "toString"; "valueOf"; "toLocaleString" ].

(** [Get] of [key] on [Object.prototype], for a receiver whose prototype
    is [proto] ([__proto__] is an accessor that answers the receiver's
    prototype). *)
Definition objectPrototypeGet (proto : Value) (key : string) : Value :=
  if String.eqb key "__proto__" then proto
  else if String.eqb key "constructor" then VBuiltin "Object"
  else if existsb (String.eqb key) objectPrototypeNames
       then VBuiltin key
       else VUndefined.

Definition quoteName (key : string) : string := "'" ++ key ++ "'".

(** [o[key]] / [o.key]: own property first, then the prototype chain.
    On [undefined] and [null] the access throws.  For primitives, arrays
    and built-in functions the model knows no properties: this is exact
    for the names the servers read on them ([path], [content], [city],
    [temperature], [unit], [humidity], [windSpeed]), which no built-in
    prototype defines. *)
Definition getProp (o : Value) (key : string) : Completion Value :=
  match o with
  | VUndefined =>
      Abrupt (TypeError ("Cannot read properties of undefined (reading "
                           ++ quoteName key ++ ")"))
  | VNull =>
      Abrupt (TypeError ("Cannot read properties of null (reading "
                           ++ quoteName key ++ ")"))
  | VObj props =>
      match ownProp props key with
      | Some v => Normal v
      | None => Normal (objectPrototypeGet VObjectPrototype key)
      end
  | VObjectPrototype => Normal (objectPrototypeGet VNull key)
  | _ => Normal VUndefined
  end.

(** [recv.toLowerCase()], where [expr] is the source text of [recv]. *)
Definition callToLowerCase (recv : Value) (expr : string) : Completion string :=
  match recv with
  | VStr s => Normal (toLowerCase s)
  | VUndefined =>
      Abrupt (TypeError "Cannot read properties of undefined (reading 'toLowerCase')")
  | VNull =>
      Abrupt (TypeError "Cannot read properties of null (reading 'toLowerCase')")
  | _ => Abrupt (TypeError (expr ++ ".toLowerCase is not a function"))
  end.

(** Decimal rendering of an integer ([Number::toString]). *)
Definition numberToString (n : Z) : string :=
  NilZero.string_of_int (Z.to_int n).

Definition hasOwn (props : list (string * Value)) (key : string) : bool :=
  match ownProp props key with Some _ => true | None => false end.

(** [ToString], as a template literal applies it.  A plain object made
    of data has no callable own [toString]: when it shadows the
    inherited one, neither [toString] nor [valueOf] gives a primitive and
    the conversion throws. *)
Fixpoint toString (v : Value) : Completion string :=
  match v with
  | VUndefined => Normal "undefined"
  | VNull => Normal "null"
  | VBool true => Normal "true"
  | VBool false => Normal "false"
  | VNum n => Normal (numberToString n)
  | VNaN => Normal "NaN"
  | VStr s => Normal s
  | VArr items =>
      (fix join (l : list Value) : Completion string :=
         match l with
         | [] => Normal EmptyString
         | x :: rest =>
             let first :=
               match x with
               | VUndefined | VNull => Normal EmptyString
               | _ => toString x
               end in
             match first with
             | Abrupt e => Abrupt e
             | Normal s =>
                 match rest with
                 | [] => Normal s
                 | _ => match join rest with
                        | Abrupt e => Abrupt e
                        | Normal t => Normal (s ++ "," ++ t)
                        end
                 end
             end
         end) items
  | VObj props =>
      if hasOwn props "toString"
      then Abrupt (TypeError "Cannot convert object to primitive value")
      else Normal "[object Object]"
  | VObjectPrototype => Normal "[object Object]"
  | VBuiltin name => Normal ("function " ++ name ++ "() { [native code] }")
  end.

(** *** [JSON.stringify] *)

Definition hexDigit (n : nat) : ascii :=
  ascii_of_nat (if (n <? 10)%nat then 48 + n else 87 + n).

Definition dquote : string := String (ascii_of_nat 34) EmptyString.
Definition backslash : string := String (ascii_of_nat 92) EmptyString.
Definition newline : string := String (ascii_of_nat 10) EmptyString.

(** [QuoteJSONString], one code unit: the quotation mark and the reverse
    solidus get a reverse solidus in front, the control characters their
    short escape or a four-digit [u] escape in lower-case hexadecimal. *)
Definition escapeChar (c : ascii) : string :=
  let n := nat_of_ascii c in
  if (n =? 34)%nat then backslash ++ dquote
  else if (n =? 92)%nat then backslash ++ backslash
  else if (n =? 8)%nat then backslash ++ "b"
  else if (n =? 9)%nat then backslash ++ "t"
  else if (n =? 10)%nat then backslash ++ "n"
  else if (n =? 12)%nat then backslash ++ "f"
  else if (n =? 13)%nat then backslash ++ "r"
  else if (n <? 32)%nat
       then backslash ++ "u00"
              ++ String (hexDigit (n / 16)) (String (hexDigit (n mod 16)) EmptyString)
       else String c EmptyString.

Fixpoint escape (s : string) : string :=
  match s with
  | EmptyString => EmptyString
  | String c rest => escapeChar c ++ escape rest
  end.

Definition quote (s : string) : string := dquote ++ escape s ++ dquote.

Fixpoint joinWith (sep : string) (parts : list string) : string :=
  match parts with
  | [] => EmptyString
  | [p] => p
  | p :: rest => p ++ sep ++ joinWith sep rest
  end.

(** [SerializeJSONProperty] with a non-empty [gap]: [indent] is the
    current indentation.  [None] is the result [undefined]. *)
Fixpoint serialize (gap indent : string) (v : Value) : option string :=
  match v with
  | VUndefined | VBuiltin _ => None
  | VNull | VNaN => Some "null"
  | VBool true => Some "true"
  | VBool false => Some "false"
  | VNum n => Some (numberToString n)
  | VStr s => Some (quote s)
  | VArr items =>
      let stepback := indent in
      let indent := indent ++ gap in
      let partial :=
        map (fun x => match serialize gap indent x with
                      | Some t => t
                      | None => "null"
                      end) items in
      match partial with
      | [] => Some "[]"
      | _ => Some ("[" ++ newline ++ indent
                       ++ joinWith ("," ++ newline ++ indent) partial
                       ++ newline ++ stepback ++ "]")
      end
  | VObj props =>
      let stepback := indent in
      let indent := indent ++ gap in
      let partial :=
        flat_map (fun kv => match serialize gap indent (snd kv) with
                            | Some t => [quote (fst kv) ++ ": " ++ t]
                            | None => []
                            end) props in
      match partial with
      | [] => Some "{}"
      | _ => Some ("{" ++ newline ++ indent
                       ++ joinWith ("," ++ newline ++ indent) partial
                       ++ newline ++ stepback ++ "}")
      end
  | VObjectPrototype => Some "{}"
  end.

(** [JSON.stringify(value, null, 2)]. *)
Definition stringify2 (v : Value) : option string := serialize "  " EmptyString v.

End JS.

(** Induction on values that reaches inside arrays and objects. *)
Section ValueInduction.
Import JS.
Variable P : Value -> Prop.
Hypothesis PUndefined : P VUndefined.
Hypothesis PNull : P VNull.
Hypothesis PBool : forall b, P (VBool b).
Hypothesis PNum : forall n, P (VNum n).
Hypothesis PNaN : P VNaN.
Hypothesis PStr : forall s, P (VStr s).
Hypothesis PArr : forall items, Forall P items -> P (VArr items).
Hypothesis PObj : forall props, Forall (fun kv => P (snd kv)) props -> P (VObj props).
Hypothesis PObjectPrototype : P VObjectPrototype.
Hypothesis PBuiltin : forall name, P (VBuiltin name).

Fixpoint Value_nested_ind (v : Value) : P v :=
  match v with
  | VUndefined => PUndefined
  | VNull => PNull
  | VBool b => PBool b
  | VNum n => PNum n
  | VNaN => PNaN
  | VStr s => PStr s
  | VArr items =>
      PArr items
        ((fix all (l : list Value) : Forall P l :=
            match l with
            | [] => Forall_nil P
            | x :: rest => Forall_cons x (Value_nested_ind x) (all rest)
            end) items)
  | VObj props =>
      PObj props
        ((fix all (l : list (string * Value)) : Forall (fun kv => P (snd kv)) l :=
            match l with
            | [] => Forall_nil _
            | kv :: rest => Forall_cons kv (Value_nested_ind (snd kv)) (all rest)
            end) props)
  | VObjectPrototype => PObjectPrototype
  | VBuiltin name => PBuiltin name
  end.
End ValueInduction.

(* ================================================================== *)
(** ** Asynchronous handlers: effects, exceptions, [try]/[catch]       *)
(* ================================================================== *)

Module Async.
Import JS.

(** A directory entry as [readdir] with [withFileTypes] reports it. *)
Record Dirent := mkDirent { entryName : string; isDirectory : bool }.

(** What a handler asks of the world outside: the [fs/promises] calls of
    the filesystem server, and the transport and the diagnostic stream
    that [main] uses.  The index is the type of the fulfilled value. *)
Inductive Effect : Type -> Type :=
| ReadFile (path : Value) (encoding : string) : Effect string
| WriteFile (path data : Value) (encoding : string) : Effect unit
| Readdir (path : Value) : Effect (list Dirent)
| Connect : Effect unit
| ConsoleError (line : string) (detail : option JsError) : Effect unit.

(** How an awaited promise settles. *)
Inductive Reply (T : Type) : Type :=
| Fulfilled (x : T)
| Rejected (e : JsError).
Arguments Fulfilled {T} x.
Arguments Rejected {T} e.

(** The body of an [async] function: it returns, throws, or performs an
    effect and goes on with the way it settled. *)
Inductive Prog (A : Type) : Type :=
| Ret (a : A)
| Throw (e : JsError)
| Perform (T : Type) (op : Effect T) (k : Reply T -> Prog A).
Arguments Ret {A} a.
Arguments Throw {A} e.
Arguments Perform {A T} op k.

Fixpoint bind {A B : Type} (p : Prog A) (f : A -> Prog B) : Prog B :=
  match p with
  | Ret a => f a
  | Throw e => Throw e
  | Perform op k => Perform op (fun r => bind (k r) f)
  end.

(** [await op]: the fulfilled value, or the rejection rethrown. *)
Definition await {T : Type} (op : Effect T) : Prog T :=
  Perform op (fun r => match r with
                       | Fulfilled x => Ret x
                       | Rejected e => Throw e
                       end).

(** A run-time operation inside an [async] body. *)
Definition lift {A : Type} (c : Completion A) : Prog A :=
  match c with
  | Normal a => Ret a
  | Abrupt e => Throw e
  end.

(** [try { body } catch (error) { handler }]. *)
Fixpoint tryCatch {A : Type} (body : Prog A) (handler : JsError -> Prog A) : Prog A :=
  match body with
  | Ret a => Ret a
  | Throw e => handler e
  | Perform op k => Perform op (fun r => tryCatch (k r) handler)
  end.

(** The world outside, with its own state [W]: how it settles each
    effect. *)
Record Env (W : Type) : Type :=
  mkEnv { settle : forall T : Type, Effect T -> W -> Reply T * W }.
Arguments settle {W} e {T} op w.

(** How a call of an [async] function ends for its caller: the promise
    is fulfilled or rejected. *)
Inductive Outcome (A : Type) : Type :=
| Returned (a : A)
| Raised (e : JsError).
Arguments Returned {A} a.
Arguments Raised {A} e.

Fixpoint run {W A : Type} (env : Env W) (p : Prog A) (w : W) : Outcome A * W :=
  match p with
  | Ret a => (Returned a, w)
  | Throw e => (Raised e, w)
  | Perform op k =>
      let (r, w') := settle env op w in run env (k r) w'
  end.

(** The effects a run performs, in order. *)
Inductive Event : Type :=
| Performed (T : Type) (op : Effect T).
Arguments Performed {T} op.

Fixpoint trace {W A : Type} (env : Env W) (p : Prog A) (w : W) : list Event :=
  match p with
  | Ret _ | Throw _ => []
  | Perform op k =>
      let (r, w') := settle env op w in Performed op :: trace env (k r) w'
  end.

End Async.

Declare Scope prog_scope.
Delimit Scope prog_scope with prog.
Notation "x <- p ;; q" := (Async.bind p (fun x => q))
  (at level 61, p at next level, right associativity) : prog_scope.
Local Open Scope prog_scope.

(* ================================================================== *)
(** ** The protocol types shared by the servers                        *)
(* ================================================================== *)

Module Mcp.
Import JS Async.

(** An entry of the tool list a server advertises. *)
Record Tool := mkTool { name : string; description : string; inputSchema : Value }.

Record ListToolsResult := mkListToolsResult { tools : list Tool }.

(** A content block; [text] is [None] when the property holds
    [undefined]. *)
Record ContentBlock := mkContentBlock { type : string; text : option string }.

(** The result of a tool call; [isError] is [None] when the object has no
    such property. *)
Record ToolCallResult :=
  mkToolCallResult { content : list ContentBlock; isError : option bool }.

(** The envelope both handlers build when [arguments] is missing. *)
Definition noArguments : ToolCallResult :=
  {| content := [ {| type := "text"; text := Some "Error: No arguments provided" |} ];
     isError := Some true |}.

(** The [catch] block of both handlers.  Whatever is thrown inside the
    [try] block is an [Error] instance, so [errorMessage] is its
    [message]. *)
Definition catchBlock (error : JsError) : Prog ToolCallResult :=
  let errorMessage := message error in
  Ret {| content := [ {| type := "text"; text := Some ("Error: " ++ errorMessage) |} ];
         isError := Some true |}.

(** The two request handlers a server installs with
    [server.setRequestHandler]. *)
Record Server := mkServer {
  listToolsHandler : Prog ListToolsResult;
  callToolHandler : string -> Value -> Prog ToolCallResult
}.

(** The two kinds of request a host sends, and what it gets back. *)
Inductive Request : Type :=
| ListToolsRequest
| CallToolRequest (name : string) (arguments : Value).

Inductive Response : Type :=
| ListToolsResponse (r : ListToolsResult)
| CallToolResponse (r : ToolCallResult)
| Fault (e : JsError).

Definition dispatch (s : Server) (rq : Request) : Prog Response :=
  match rq with
  | ListToolsRequest =>
      r <- listToolsHandler s ;; Ret (ListToolsResponse r)
  | CallToolRequest name arguments =>
      r <- callToolHandler s name arguments ;; Ret (CallToolResponse r)
  end.

(** One request handed to the handler installed for it, and what that
    handler gives back; a handler's rejection goes back as a protocol
    fault.  The SDK's own checks of the request and of the result are no
    part of this. *)
Definition serve {W : Type} (env : Env W) (s : Server) (w : W) (rq : Request)
  : Response * W :=
  match run env (dispatch s rq) w with
  | (Returned r, w') => (r, w')
  | (Raised e, w') => (Fault e, w')
  end.

(** Requests are served one after the other. *)
Fixpoint serveAll {W : Type} (env : Env W) (s : Server) (w : W) (rqs : list Request)
  : list Response * W :=
  match rqs with
  | [] => ([], w)
  | rq :: rest =>
      let (r, w1) := serve env s w rq in
      let (rs, w2) := serveAll env s w1 rest in
      (r :: rs, w2)
  end.

(** [main]: connect the transport, then announce the server on the
    diagnostic stream. *)
Definition main (banner : string) : Prog unit :=
  _ <- await Connect ;;
  Perform (ConsoleError banner None) (fun _ => Ret tt).

(** How the process stands after start-up. *)
Inductive Lifecycle : Type :=
| Serving
| Exited (code : Z).

(** [main().catch(error => { console.error("Fatal error:", error);
    process.exit(1); })]. *)
Definition start (banner : string) : Prog Lifecycle :=
  tryCatch (_ <- main banner ;; Ret Serving)
           (fun error =>
              Perform (ConsoleError "Fatal error:" (Some error))
                      (fun _ => Ret (Exited 1))).

End Mcp.

(* ================================================================== *)
(** ** The filesystem server                                           *)
(* ================================================================== *)

Module Filesystem.
Import JS Async Mcp.

Definition stringParam (description : string) : Value :=
  VObj [("type", VStr "string"); ("description", VStr description)].

Definition toolList : list Tool :=
  [ {| name := "read_file";
       description := "Read the contents of a file from the filesystem";
       inputSchema :=
         VObj [("type", VStr "object");
               ("properties",
                VObj [("path", stringParam "Path to the file to read")]);
               ("required", VArr [VStr "path"])] |};
    {| name := "write_file";
       description := "Write content to a file on the filesystem";
       inputSchema :=
         VObj [("type", VStr "object");
               ("properties",
                VObj [("path", stringParam "Path to the file to write");
                      ("content", stringParam "Content to write to the file")]);
               ("required", VArr [VStr "path"; VStr "content"])] |};
    {| name := "list_directory";
       description := "List contents of a directory";
       inputSchema :=
         VObj [("type", VStr "object");
               ("properties",
                VObj [("path", stringParam "Path to the directory to list")]);
               ("required", VArr [VStr "path"])] |} ].

(** The [ListToolsRequestSchema] handler. *)
Definition listTools : Prog ListToolsResult :=
  Ret {| tools := toolList |}.

(** [entries.map(entry => ({ name, type }))]. *)
Definition item (entry : Dirent) : Value :=
  VObj [("name", VStr (entryName entry));
        ("type", VStr (if isDirectory entry then "directory" else "file"))].

(** The [try] block of the [CallToolRequestSchema] handler: the [switch]
    over the tool name. *)
Definition tryBlock (name : string) (args : Value) : Prog ToolCallResult :=
  if String.eqb name "read_file" then
    filePath <- lift (getProp args "path") ;;
    content <- await (ReadFile filePath "utf-8") ;;
    Ret {| content := [ {| type := "text"; text := Some content |} ];
           isError := None |}
  else if String.eqb name "write_file" then
    filePath <- lift (getProp args "path") ;;
    content <- lift (getProp args "content") ;;
    _ <- await (WriteFile filePath content "utf-8") ;;
    shown <- lift (toString filePath) ;;
    Ret {| content := [ {| type := "text";
                           text := Some ("Successfully wrote to " ++ shown) |} ];
           isError := None |}
  else if String.eqb name "list_directory" then
    dirPath <- lift (getProp args "path") ;;
    entries <- await (Readdir dirPath) ;;
    let items := map item entries in
    Ret {| content := [ {| type := "text"; text := stringify2 (VArr items) |} ];
           isError := None |}
  else
    Throw (Error ("Unknown tool: " ++ name)).

(** The [CallToolRequestSchema] handler. *)
Definition callTool (name : string) (args : Value) : Prog ToolCallResult :=
  if negb (truthy args) then Ret noArguments
  else tryCatch (tryBlock name args) catchBlock.

Definition server : Server :=
  {| listToolsHandler := listTools; callToolHandler := callTool |}.

Definition banner : string := "Filesystem MCP Server running on stdio".

End Filesystem.

(* ================================================================== *)
(** ** The weather server                                              *)
(* ================================================================== *)

Module Weather.
Import JS Async Mcp.

Definition record (city : string) (temperature : Z) (unit conditions : string)
    (humidity windSpeed : Z) : Value :=
  VObj [("city", VStr city); ("temperature", VNum temperature);
        ("unit", VStr unit); ("conditions", VStr conditions);
        ("humidity", VNum humidity); ("windSpeed", VNum windSpeed)].

(** The mock data: an object literal, so a plain object whose prototype
    is [Object.prototype]. *)
Definition mockWeatherData : Value :=
  VObj [("new york", record "New York" 72 "F" "Partly cloudy" 65 12);
        ("london", record "London" 18 "C" "Rainy" 80 15);
        ("tokyo", record "Tokyo" 25 "C" "Sunny" 55 8);
        ("paris", record "Paris" 20 "C" "Cloudy" 70 10);
        ("sydney", record "Sydney" 22 "C" "Clear" 60 18)].

(** The keys of [mockWeatherData]. *)
Definition cityKeys : list string :=
  ["new york"; "london"; "tokyo"; "paris"; "sydney"].

Definition cityParam (description : string) : Value :=
  VObj [("type", VStr "object");
        ("properties",
         VObj [("city", VObj [("type", VStr "string");
                              ("description", VStr description)])]);
        ("required", VArr [VStr "city"])].

Definition toolList : list Tool :=
  [ {| name := "get_weather";
       description := "Get current weather information for a city (mock data). Supported cities: New York, London, Tokyo, Paris, Sydney";
       inputSchema := cityParam "Name of the city to get weather for" |};
    {| name := "get_forecast";
       description := "Get 3-day weather forecast for a city (mock data)";
       inputSchema := cityParam "Name of the city to get forecast for" |} ].

(** The [ListToolsRequestSchema] handler. *)
Definition listTools : Prog ListToolsResult :=
  Ret {| tools := toolList |}.

(** [ToNumber] of an operand of the forecast arithmetic; [None] is [NaN].
    The operands are fields of a mock record (numbers) or properties the
    receiver lacks ([undefined]); strings and objects, whose conversion
    is not modelled, do not occur. *)
Definition toNumber (v : Value) : option Z :=
  match v with
  | VNum n => Some n
  | VNull => Some 0
  | VBool b => Some (if b then 1 else 0)
  | _ => None
  end.

Definition plus (v : Value) (k : Z) : Value :=
  match toNumber v with Some n => VNum (n + k) | None => VNaN end.

Definition minus (v : Value) (k : Z) : Value :=
  match toNumber v with Some n => VNum (n - k) | None => VNaN end.

(** The own enumerable properties an object spread copies.  A plain
    object gives its properties; [Object.prototype] and the built-in
    functions have none that are enumerable. *)
Definition ownEnumerable (v : Value) : list (string * Value) :=
  match v with
  | VObj props => props
  | _ => []
  end.

(** Define or overwrite one property, keeping its place when it exists. *)
Fixpoint setProp (props : list (string * Value)) (key : string) (v : Value)
  : list (string * Value) :=
  match props with
  | [] => [(key, v)]
  | (k, old) :: rest =>
      if String.eqb k key then (k, v) :: rest else (k, old) :: setProp rest key v
  end.

(** [{ ...props, ...source }]. *)
Definition spread (props : list (string * Value)) (source : Value)
  : list (string * Value) :=
  fold_left (fun acc kv => setProp acc (fst kv) (snd kv)) (ownEnumerable source) props.

Definition unavailable (shown : string) : string :=
  "Weather data not available for " ++ shown
    ++ ". Supported cities: New York, London, Tokyo, Paris, Sydney".

(** The statement [const forecast = [ ... ]]: today's entry spreads the
    current record, the two others read its fields and shift the
    numbers. *)
Definition buildForecast (currentWeather : Value) : Prog Value :=
  city1 <- lift (getProp currentWeather "city") ;;
  temperature1 <- lift (getProp currentWeather "temperature") ;;
  unit1 <- lift (getProp currentWeather "unit") ;;
  humidity1 <- lift (getProp currentWeather "humidity") ;;
  windSpeed1 <- lift (getProp currentWeather "windSpeed") ;;
  city2 <- lift (getProp currentWeather "city") ;;
  temperature2 <- lift (getProp currentWeather "temperature") ;;
  unit2 <- lift (getProp currentWeather "unit") ;;
  humidity2 <- lift (getProp currentWeather "humidity") ;;
  windSpeed2 <- lift (getProp currentWeather "windSpeed") ;;
  Ret (VArr [ VObj (spread [("day", VStr "Today")] currentWeather);
              VObj [("day", VStr "Tomorrow");
                    ("city", city1);
                    ("temperature", plus temperature1 2);
                    ("unit", unit1);
                    ("conditions", VStr "Partly cloudy");
                    ("humidity", minus humidity1 5);
                    ("windSpeed", plus windSpeed1 3)];
              VObj [("day", VStr "Day After Tomorrow");
                    ("city", city2);
                    ("temperature", minus temperature2 1);
                    ("unit", unit2);
                    ("conditions", VStr "Cloudy");
                    ("humidity", plus humidity2 10);
                    ("windSpeed", minus windSpeed2 2)] ]).

(** The [try] block of the [CallToolRequestSchema] handler: the city is
    read and lower-cased first, then comes the [switch] over the tool
    name. *)
Definition tryBlock (name : string) (args : Value) : Prog ToolCallResult :=
  argCity <- lift (getProp args "city") ;;
  city <- lift (callToLowerCase argCity "args.city") ;;
  if String.eqb name "get_weather" then
    weather <- lift (getProp mockWeatherData city) ;;
    if negb (truthy weather) then
      argCity <- lift (getProp args "city") ;;
      shown <- lift (toString argCity) ;;
      Throw (Error (unavailable shown))
    else
      Ret {| content := [ {| type := "text"; text := stringify2 weather |} ];
             isError := None |}
  else if String.eqb name "get_forecast" then
    currentWeather <- lift (getProp mockWeatherData city) ;;
    if negb (truthy currentWeather) then
      argCity <- lift (getProp args "city") ;;
      shown <- lift (toString argCity) ;;
      Throw (Error (unavailable shown))
    else
      forecast <- buildForecast currentWeather ;;
      Ret {| content := [ {| type := "text"; text := stringify2 forecast |} ];
             isError := None |}
  else
    Throw (Error ("Unknown tool: " ++ name)).

(** The [CallToolRequestSchema] handler. *)
Definition callTool (name : string) (args : Value) : Prog ToolCallResult :=
  if negb (truthy args) then Ret noArguments
  else tryCatch (tryBlock name args) catchBlock.

Definition server : Server :=
  {| listToolsHandler := listTools; callToolHandler := callTool |}.

Definition banner : string := "Weather MCP Server running on stdio".

End Weather.

(* ================================================================== *)
(** ** Vocabulary of the statements                                    *)
(* ================================================================== *)

Module Props.
Import JS Async Mcp.

(** *** Texts *)

(** [hay.includes(needle)]. *)
Fixpoint includes (needle hay : string) : bool :=
  String.prefix needle hay
  || match hay with
     | EmptyString => false
     | String _ rest => includes needle rest
     end.

(** No capital letter A-Z in [s]. *)
Definition noCapital (s : string) : bool :=
  forallb (fun c => negb ((65 <=? nat_of_ascii c) && (nat_of_ascii c <=? 90))%nat)
          (list_ascii_of_string s).

(** *** What a handler body can do *)

(** [atMost n p]: the body [p] performs at most [n] effects, however
    they settle. *)
Fixpoint atMost {A : Type} (n : nat) (p : Prog A) {struct p} : Prop :=
  match p with
  | Ret _ | Throw _ => True
  | Perform op k =>
      match n with
      | O => False
      | S m => forall r, atMost m (k r)
      end
  end.

(** An effect that is settled with the same reply in two worlds. *)
Definition settlesAlike {W1 W2 : Type} (env1 : Env W1) (w1 : W1)
    (env2 : Env W2) (w2 : W2) (ev : Event) : Prop :=
  match ev with
  | Performed op => fst (settle env1 op w1) = fst (settle env2 op w2)
  end.

(** [returns P p]: every value the body [p] can return, however its
    effects settle, satisfies [P]. *)
Fixpoint returns {A : Type} (P : A -> Prop) (p : Prog A) : Prop :=
  match p with
  | Ret a => P a
  | Throw _ => True
  | Perform op k => forall r, returns P (k r)
  end.

(** [throws Q p]: every error the body [p] throws satisfies [Q], given
    that the rejections the world hands in do. *)
Fixpoint throws {A : Type} (Q : JsError -> Prop) (p : Prog A) : Prop :=
  match p with
  | Ret _ => True
  | Throw e => Q e
  | Perform op k => forall r, (forall e, r = Rejected e -> Q e) -> throws Q (k r)
  end.

(** *** Errors *)

(** The messages the handlers and the run time produce on their own all
    differ from the text of the missing-arguments guard. *)
Definition ownWording (e : JsError) : Prop :=
  message e <> "No arguments provided".

(** An environment whose failures never borrow the wording of the
    missing-arguments envelope. *)
Definition foreignMessages {W : Type} (env : Env W) : Prop :=
  forall (T : Type) (op : Effect T) (w : W) (e : JsError),
    fst (settle env op w) = Rejected e -> message e <> "No arguments provided".

(** The error of a failed string conversion. *)
Definition cannotConvert : JsError :=
  TypeError "Cannot convert object to primitive value".

(** *** A sample world *)

(** A small world to run the handlers in: files by path, one flat
    directory [/], a transport that connects.  Paths and data that are not
    strings are rejected, as [fs/promises] rejects them. *)
Definition Files : Type := list (string * string).

Fixpoint readAt (files : Files) (path : string) : option string :=
  match files with
  | [] => None
  | (p, c) :: rest => if String.eqb p path then Some c else readAt rest path
  end.

Definition invalidPath : JsError :=
  TypeError "The path argument must be of type string".

Definition noEntry (path : string) : JsError :=
  Error ("ENOENT: no such file or directory, open '" ++ path ++ "'").

Definition memorySettle (T : Type) (op : Effect T) (files : Files) : Reply T * Files :=
  match op in Effect T0 return Reply T0 * Files with
  | ReadFile (VStr p) _ =>
      match readAt files p with
      | Some c => (Fulfilled c, files)
      | None => (Rejected (noEntry p), files)
      end
  | ReadFile _ _ => (Rejected invalidPath, files)
  | WriteFile (VStr p) (VStr c) _ => (Fulfilled tt, (p, c) :: files)
  | WriteFile _ _ _ => (Rejected invalidPath, files)
  | Readdir (VStr "/") =>
      (Fulfilled (map (fun pc => mkDirent (fst pc) false) files), files)
  | Readdir _ => (Rejected (Error "ENOTDIR: not a directory, scandir"), files)
  | Connect => (Fulfilled tt, files)
  | ConsoleError _ _ => (Fulfilled tt, files)
  end.

Definition memory : Env Files := {| settle := memorySettle |}.

Definition sampleFiles : Files := [("notes.txt", "hello"); ("todo.md", "- ship")].

(** *** Payloads *)

(** What a tool hands over to be shown: a string that becomes the text as
    it is, or a value that goes through [JSON.stringify(_, null, 2)]. *)
Inductive Payload : Type :=
| Plain (s : string)
| Json (v : Value).

Definition encode (p : Payload) : option string :=
  match p with
  | Plain s => Some s
  | Json v => stringify2 v
  end.

(** The envelope of a success: one text block, no [isError] property. *)
Definition success (p : Payload) : ToolCallResult :=
  {| content := [ {| type := "text"; text := encode p |} ]; isError := None |}.

(** JSON data: [null], booleans, numbers, strings, and arrays and plain
    objects of data.  [undefined], [NaN], functions and [Object.prototype]
    are not. *)
Fixpoint isData (v : Value) : bool :=
  match v with
  | VNull | VBool _ | VNum _ | VStr _ => true
  | VArr items => forallb isData items
  | VObj props => forallb (fun kv => isData (snd kv)) props
  | VUndefined | VNaN | VObjectPrototype | VBuiltin _ => false
  end.

Definition dataPayload (p : Payload) : bool :=
  match p with
  | Plain _ => true
  | Json v => isData v
  end.

Definition sameKind (p q : Payload) : Prop :=
  match p, q with
  | Plain _, Plain _ | Json _, Json _ => True
  | _, _ => False
  end.

(** What each tool of the filesystem server hands over when its call to
    [fs/promises] is fulfilled, and the world it leaves. *)
Inductive FilesystemHands {W : Type} (env : Env W) (w : W) (args : Value)
  : string -> Payload -> W -> Prop :=
| HandsReadFile (filePath : Value) (content : string) (w' : W) :
    getProp args "path" = Normal filePath ->
    settle env (ReadFile filePath "utf-8") w = (Fulfilled content, w') ->
    FilesystemHands env w args "read_file" (Plain content) w'
| HandsWriteFile (filePath content : Value) (shown : string) (w' : W) :
    getProp args "path" = Normal filePath ->
    getProp args "content" = Normal content ->
    settle env (WriteFile filePath content "utf-8") w = (Fulfilled tt, w') ->
    toString filePath = Normal shown ->
    FilesystemHands env w args "write_file"
                    (Plain ("Successfully wrote to " ++ shown)) w'
| HandsListDirectory (dirPath : Value) (entries : list Dirent) (w' : W) :
    getProp args "path" = Normal dirPath ->
    settle env (Readdir dirPath) w = (Fulfilled entries, w') ->
    FilesystemHands env w args "list_directory"
                    (Json (VArr (map Filesystem.item entries))) w'.

(** What each tool of the weather server hands over for a city that
    lower-cases to one of the five keys. *)
Inductive WeatherHands (args : Value) : string -> Payload -> Prop :=
| HandsWeather (c : string) (weather : Value) :
    getProp args "city" = Normal (VStr c) ->
    In (toLowerCase c) Weather.cityKeys ->
    getProp Weather.mockWeatherData (toLowerCase c) = Normal weather ->
    WeatherHands args "get_weather" (Json weather)
| HandsForecast (c : string) (currentWeather forecast : Value) :
    getProp args "city" = Normal (VStr c) ->
    In (toLowerCase c) Weather.cityKeys ->
    getProp Weather.mockWeatherData (toLowerCase c) = Normal currentWeather ->
    Weather.buildForecast currentWeather = Ret forecast ->
    WeatherHands args "get_forecast" (Json forecast).

(** *** Reading a serialized value back *)

(** Reading back one escaped code unit from the head of a string: the
    inverse of [escapeChar]. *)
Definition hexValue (c : ascii) : option nat :=
  let n := nat_of_ascii c in
  if ((48 <=? n) && (n <=? 57))%nat then Some (n - 48)%nat
  else if ((97 <=? n) && (n <=? 102))%nat then Some (n - 87)%nat
  else None.

Definition unescapeChar (s : string) : option (ascii * string) :=
  match s with
  | EmptyString => None
  | String c rest =>
      let n := nat_of_ascii c in
      if (n =? 34)%nat then None
      else if (n =? 92)%nat then
        match rest with
        | EmptyString => None
        | String e rest' =>
            let m := nat_of_ascii e in
            if (m =? 34)%nat then Some (ascii_of_nat 34, rest')
            else if (m =? 92)%nat then Some (ascii_of_nat 92, rest')
            else if (m =? 98)%nat then Some (ascii_of_nat 8, rest')
            else if (m =? 116)%nat then Some (ascii_of_nat 9, rest')
            else if (m =? 110)%nat then Some (ascii_of_nat 10, rest')
            else if (m =? 102)%nat then Some (ascii_of_nat 12, rest')
            else if (m =? 114)%nat then Some (ascii_of_nat 13, rest')
            else if (m =? 117)%nat then
              match rest' with
              | String z1 (String z2 (String h1 (String h2 rest''))) =>
                  match hexValue z1, hexValue z2, hexValue h1, hexValue h2 with
                  | Some O, Some O, Some a, Some b =>
                      Some (ascii_of_nat (16 * a + b), rest'')
                  | _, _, _, _ => None
                  end
              | _ => None
              end
            else None
        end
      else if (n <? 32)%nat then None
      else Some (c, rest)
  end.

(** The characters of a printed integer, and the characters that may
    follow a serialized value inside an array or an object. *)
Definition isNumberChar (c : ascii) : bool :=
  let n := nat_of_ascii c in
  ((n =? 45) || ((48 <=? n) && (n <=? 57)))%nat.

Definition isStop (c : ascii) : bool :=
  let n := nat_of_ascii c in ((n =? 44) || (n =? 10))%nat.

Definition stops (r : string) : Prop :=
  match r with
  | EmptyString => True
  | String c _ => isStop c = true
  end.

(** The first character of a serialized value tells its kind. *)
Inductive Kind : Type :=
| KNull | KTrue | KFalse | KNumber | KString | KArray | KObject | KNone.

Definition kindOf (v : Value) : Kind :=
  match v with
  | VNull => KNull
  | VBool true => KTrue
  | VBool false => KFalse
  | VNum _ => KNumber
  | VStr _ => KString
  | VArr _ => KArray
  | VObj _ => KObject
  | _ => KNone
  end.

Definition kindOfChar (c : ascii) : Kind :=
  let n := nat_of_ascii c in
  if (n =? 110)%nat then KNull
  else if (n =? 116)%nat then KTrue
  else if (n =? 102)%nat then KFalse
  else if isNumberChar c then KNumber
  else if (n =? 34)%nat then KString
  else if (n =? 91)%nat then KArray
  else if (n =? 123)%nat then KObject
  else KNone.

(** The tail of a bracketed sequence after its first member. *)
Fixpoint chain (sep close : string) (parts : list string) : string :=
  match parts with
  | [] => close
  | p :: rest => sep ++ p ++ chain sep close rest
  end.

(** What an array element contributes to the text, and what a property
    does. *)
Definition out (gap indent : string) (v : Value) : string :=
  match serialize gap indent v with
  | Some t => t
  | None => "null"
  end.

Definition member (gap indent : string) (kv : string * Value) : string :=
  quote (fst kv) ++ ": " ++ out gap indent (snd kv).

(** [uniquelyRead gap v]: the text of [v], followed by a stop, is the text of
    no other datum at the same indentation. *)
Definition uniquelyRead (gap : string) (v1 : Value) : Prop :=
  forall (indent : string) (v2 : Value) (r1 r2 : string),
    isData v1 = true -> isData v2 = true -> stops r1 -> stops r2 ->
    out gap indent v1 ++ r1 = out gap indent v2 ++ r2 -> v1 = v2 /\ r1 = r2.

End Props.

(* ================================================================== *)
(** ** Vocabulary of the further properties                            *)
(* ================================================================== *)

Module Observations.
Import JS Async Mcp Props.

(** The envelope the [catch] block builds around a message. *)
Definition errorEnvelope (errorMessage : string) : ToolCallResult :=
  {| content := [ {| type := "text"; text := Some ("Error: " ++ errorMessage) |} ];
     isError := Some true |}.

(** The value a property read yields where it cannot throw ([undefined]
    stands in where it would). *)
Definition valueAt (o : Value) (key : string) : Value :=
  match getProp o key with
  | Normal v => v
  | Abrupt _ => VUndefined
  end.

(** Whether an effect writes a file. *)
Definition isWrite (ev : Event) : bool :=
  match ev with
  | Performed op =>
      match op with
      | WriteFile _ _ _ => true
      | _ => false
      end
  end.

Definition isString (v : Value) : bool :=
  match v with
  | VStr _ => true
  | _ => false
  end.

(** The text of the engine's [TypeError] when [args.city] is not a
    string. *)
Definition cityTypeError (v : Value) : string :=
  match v with
  | VUndefined => "Cannot read properties of undefined (reading 'toLowerCase')"
  | VNull => "Cannot read properties of null (reading 'toLowerCase')"
  | _ => "args.city.toLowerCase is not a function"
  end.

(** The city name a mock record displays. *)
Definition displayedCity (rec : Value) : Value := valueAt rec "city".

(** The entries of [mockWeatherData]. *)
Definition mockEntries : list (string * Value) :=
  match Weather.mockWeatherData with
  | VObj props => props
  | _ => []
  end.

End Observations.

(* ================================================================== *)
(** ** Running handlers: general facts                                 *)
(* ================================================================== *)

Import JS Async Mcp Props.

Lemma run_bind {W A B : Type} (env : Env W) (p : Prog A) (f : A -> Prog B) (w : W) :
  run env (bind p f) w =
  match run env p w with
  | (Returned a, w') => run env (f a) w'
  | (Raised e, w') => (Raised e, w')
  end.
Proof.
  revert w. induction p as [a | e | T op k IH]; intros w; simpl; try reflexivity.
  destruct (settle env op w) as [r w']. apply IH.
Qed.

Lemma run_tryCatch {W A : Type} (env : Env W) (body : Prog A)
    (handler : JsError -> Prog A) (w : W) :
  run env (tryCatch body handler) w =
  match run env body w with
  | (Returned a, w') => (Returned a, w')
  | (Raised e, w') => run env (handler e) w'
  end.
Proof.
  revert w. induction body as [a | e | T op k IH]; intros w; simpl; try reflexivity.
  destruct (settle env op w) as [r w']. apply IH.
Qed.

(** A [try] whose [catch] block returns never lets an error out. *)
Lemma run_absorbed {W : Type} (env : Env W) (body : Prog ToolCallResult) (w : W) :
  exists r w', run env (tryCatch body catchBlock) w = (Returned r, w').
Proof.
  rewrite run_tryCatch. destruct (run env body w) as [[r | e] w']; simpl; eauto.
Qed.

Lemma run_callTool_shape {W : Type} (env : Env W) (body : Prog ToolCallResult) (w : W) :
  forall r w', run env (tryCatch body catchBlock) w = (Returned r, w') ->
    run env body w = (Returned r, w')
    \/ exists e, run env body w = (Raised e, w')
                 /\ r = {| content := [ {| type := "text";
                                           text := Some ("Error: " ++ message e) |} ];
                           isError := Some true |}.
Proof.
  intros r w'. rewrite run_tryCatch.
  destruct (run env body w) as [[r0 | e] w0]; simpl; intros H; inversion H; subst.
  - left; reflexivity.
  - right; exists e; split; reflexivity.
Qed.

(* ================================================================== *)
(** ** The dispatch boundary                                           *)
(* ================================================================== *)

Lemma filesystem_callTool_returns {W : Type} (env : Env W) (w : W)
    (name : string) (args : Value) :
  exists r w', run env (Filesystem.callTool name args) w = (Returned r, w').
Proof.
  unfold Filesystem.callTool. destruct (negb (truthy args)).
  - simpl; eauto.
  - apply run_absorbed.
Qed.

Lemma weather_callTool_returns {W : Type} (env : Env W) (w : W)
    (name : string) (args : Value) :
  exists r w', run env (Weather.callTool name args) w = (Returned r, w').
Proof.
  unfold Weather.callTool. destruct (negb (truthy args)).
  - simpl; eauto.
  - apply run_absorbed.
Qed.


(** C2.  When [arguments] is absent ([undefined]) or [null], [callTool]
    of either server is the immediate return of the missing-arguments
    envelope, for every tool name, registered or not: [isError] is [true],
    the content is the one text block [Error: No arguments provided], and
    no effect is performed on the way. *)
Theorem callTool_without_arguments :
  forall (name : string),
    noArguments = {| content := [ {| type := "text";
                                     text := Some "Error: No arguments provided" |} ];
                     isError := Some true |}
    /\ Forall (fun args : Value =>
                 Filesystem.callTool name args = Ret noArguments
                 /\ Weather.callTool name args = Ret noArguments
                 /\ forall (W : Type) (env : Env W) (w : W),
                      run env (Filesystem.callTool name args) w = (Returned noArguments, w)
                      /\ trace env (Filesystem.callTool name args) w = []
                      /\ run env (Weather.callTool name args) w = (Returned noArguments, w)
                      /\ trace env (Weather.callTool name args) w = [])
              [VUndefined; VNull].
Proof.
  intros name. split; [reflexivity |].
  repeat constructor.
Qed.

(** The filesystem server answers an unknown tool name with
    [Unknown tool: <name>] whatever the (truthy) arguments are. *)
Lemma filesystem_unknown_tool :
  forall (W : Type) (env : Env W) (w : W) (name : string) (args : Value),
    truthy args = true ->
    ~ In name (map Mcp.name Filesystem.toolList) ->
    run env (Filesystem.callTool name args) w
    = (Returned {| content := [ {| type := "text";
                                   text := Some ("Error: Unknown tool: " ++ name) |} ];
                   isError := Some true |}, w).
Proof.
  intros W env w name args Ht Hn. unfold Filesystem.callTool, Filesystem.tryBlock.
  rewrite Ht; simpl negb; cbv iota.
  destruct (String.eqb_spec name "read_file") as [-> | _];
    [exfalso; apply Hn; simpl; auto |].
  destruct (String.eqb_spec name "write_file") as [-> | _];
    [exfalso; apply Hn; simpl; auto |].
  destruct (String.eqb_spec name "list_directory") as [-> | _];
    [exfalso; apply Hn; simpl; auto |].
  reflexivity.
Qed.

(** The weather server does so once [args.city] is a string. *)
Lemma weather_unknown_tool_with_city :
  forall (W : Type) (env : Env W) (w : W) (name : string)
         (props : list (string * Value)) (c : string),
    ownProp props "city" = Some (VStr c) ->
    ~ In name (map Mcp.name Weather.toolList) ->
    run env (Weather.callTool name (VObj props)) w
    = (Returned {| content := [ {| type := "text";
                                   text := Some ("Error: Unknown tool: " ++ name) |} ];
                   isError := Some true |}, w).
Proof.
  intros W env w name props c Hc Hn. unfold Weather.callTool, Weather.tryBlock.
  simpl truthy; simpl negb; cbv iota.
  unfold getProp at 1. rewrite Hc. simpl.
  destruct (String.eqb_spec name "get_weather") as [-> | _];
    [exfalso; apply Hn; simpl; auto |].
  destruct (String.eqb_spec name "get_forecast") as [-> | _];
    [exfalso; apply Hn; simpl; auto |].
  reflexivity.
Qed.

(** C3.  The weather server reads and lower-cases [args.city] before it
    looks at the tool name.  With the arguments [{}] and the unregistered
    name [nope] the call ends in the engine's [TypeError], and the text of
    the envelope does not mention [Unknown tool: nope]; the filesystem
    server, given the same request, answers [Error: Unknown tool: nope]. *)
Theorem weather_unknown_tool_empty_arguments :
  forall (W : Type) (env : Env W) (w : W),
    ~ In "nope" (map Mcp.name Weather.toolList)
    /\ run env (Weather.callTool "nope" (VObj [])) w
       = (Returned {| content :=
                        [ {| type := "text";
                             text := Some "Error: Cannot read properties of undefined (reading 'toLowerCase')" |} ];
                      isError := Some true |}, w)
    /\ includes "Unknown tool: nope"
                "Error: Cannot read properties of undefined (reading 'toLowerCase')"
       = false
    /\ run env (Filesystem.callTool "nope" (VObj [])) w
       = (Returned {| content := [ {| type := "text";
                                      text := Some "Error: Unknown tool: nope" |} ];
                      isError := Some true |}, w).
Proof.
  intros W env w. split; [| split; [| split]].
  - simpl. intros [H | [H | []]]; discriminate H.
  - reflexivity.
  - vm_compute. reflexivity.
  - reflexivity.
Qed.

(* ================================================================== *)
(** ** Discovery                                                       *)
(* ================================================================== *)

Lemma serve_listTools {W : Type} (env : Env W) (s : Server) (l : list Tool) (w : W) :
  listToolsHandler s = Ret {| tools := l |} ->
  serve env s w ListToolsRequest = (ListToolsResponse {| tools := l |}, w)
  /\ trace env (dispatch s ListToolsRequest) w = [].
Proof.
  intros H. unfold serve, dispatch. rewrite H. split; reflexivity.
Qed.

(** C5.  After any sequence of earlier discovery and call requests, in
    any environment, a tool-list request is answered with the server's
    static tool list, in the order it is written; answering it performs no
    effect and leaves the world as it was. *)
Theorem listTools_stable :
  forall (W : Type) (env : Env W) (w : W) (history : list Request),
    let afterF := snd (serveAll env Filesystem.server w history) in
    let afterW := snd (serveAll env Weather.server w history) in
    serve env Filesystem.server afterF ListToolsRequest
    = (ListToolsResponse {| tools := Filesystem.toolList |}, afterF)
    /\ serve env Weather.server afterW ListToolsRequest
       = (ListToolsResponse {| tools := Weather.toolList |}, afterW)
    /\ trace env (dispatch Filesystem.server ListToolsRequest) afterF = []
    /\ trace env (dispatch Weather.server ListToolsRequest) afterW = []
    /\ map Mcp.name Filesystem.toolList = ["read_file"; "write_file"; "list_directory"]
    /\ map Mcp.name Weather.toolList = ["get_weather"; "get_forecast"].
Proof.
  intros W env w history afterF afterW.
  destruct (serve_listTools env Filesystem.server Filesystem.toolList afterF eq_refl)
    as [F1 F2].
  destruct (serve_listTools env Weather.server Weather.toolList afterW eq_refl)
    as [W1 W2].
  repeat split; assumption.
Qed.

(* ================================================================== *)
(** ** The envelope                                                    *)
(* ================================================================== *)

Lemma returns_run {W A : Type} (env : Env W) (P : A -> Prop) (p : Prog A) :
  returns P p -> forall w r w', run env p w = (Returned r, w') -> P r.
Proof.
  induction p as [a | e | T op k IH]; simpl; intros HP w r w' H.
  - inversion H; subst; assumption.
  - discriminate.
  - destruct (settle env op w) as [rep w1]. eapply IH; eauto.
Qed.

Lemma returns_bind {A B : Type} (P : B -> Prop) (p : Prog A) (f : A -> Prog B) :
  returns (fun a => returns P (f a)) p -> returns P (bind p f).
Proof.
  induction p as [a | e | T op k IH]; simpl; auto.
Qed.

Lemma returns_lift {A : Type} (P : A -> Prop) (c : Completion A) :
  (forall a, c = Normal a -> P a) -> returns P (lift c).
Proof.
  destruct c; simpl; auto.
Qed.

Lemma returns_await {A : Type} (P : A -> Prop) (op : Effect A) :
  (forall a, P a) -> returns P (await op).
Proof.
  intros H [x | e]; simpl; auto.
Qed.

Ltac returns_steps :=
  repeat first
    [ apply returns_bind
    | apply returns_lift; intros ? ?
    | apply returns_await; intros ?
    | match goal with
      | |- returns _ (if ?b then _ else _) => destruct b
      end ].

Lemma filesystem_tryBlock_returns (name : string) (args : Value) :
  returns (fun r => length (content r) = 1%nat /\ isError r = None)
          (Filesystem.tryBlock name args).
Proof.
  unfold Filesystem.tryBlock. returns_steps; simpl; auto.
Qed.

Lemma weather_tryBlock_returns (name : string) (args : Value) :
  returns (fun r => length (content r) = 1%nat /\ isError r = None)
          (Weather.tryBlock name args).
Proof.
  unfold Weather.tryBlock. returns_steps; simpl; auto.
Qed.

(** C6.  The result [callTool] returns holds exactly one content block,
    hence at least one, on the missing-arguments path, on every success
    path and on the error path, in both servers. *)
Theorem callTool_content_nonempty :
  forall (W : Type) (env : Env W) (w : W) (name : string) (args : Value),
    (exists r w', run env (Filesystem.callTool name args) w = (Returned r, w')
                  /\ length (content r) = 1%nat /\ content r <> [])
    /\ (exists r w', run env (Weather.callTool name args) w = (Returned r, w')
                     /\ length (content r) = 1%nat /\ content r <> []).
Proof.
  intros W env w name args.
  assert (E : forall l : list ContentBlock, length l = 1%nat -> l <> [])
    by (intros [| b l]; simpl; congruence).
  split.
  - destruct (filesystem_callTool_returns env w name args) as (r & w' & H).
    exists r, w'. split; [exact H |].
    cut (length (content r) = 1%nat); [auto |].
    unfold Filesystem.callTool in H. destruct (negb (truthy args)).
    + inversion H; reflexivity.
    + destruct (run_callTool_shape env _ w r w' H) as [Hb | (e & _ & ->)].
      * apply (returns_run env _ _ (filesystem_tryBlock_returns name args) _ _ _ Hb).
      * reflexivity.
  - destruct (weather_callTool_returns env w name args) as (r & w' & H).
    exists r, w'. split; [exact H |].
    cut (length (content r) = 1%nat); [auto |].
    unfold Weather.callTool in H. destruct (negb (truthy args)).
    + inversion H; reflexivity.
    + destruct (run_callTool_shape env _ w r w' H) as [Hb | (e & _ & ->)].
      * apply (returns_run env _ _ (weather_tryBlock_returns name args) _ _ _ Hb).
      * reflexivity.
Qed.

(* ================================================================== *)
(** ** The tool lists                                               *)
(* ================================================================== *)

(** The names in each server's tool list are pairwise distinct. *)
Lemma tool_names_distinct :
  NoDup (map Mcp.name Filesystem.toolList)
  /\ NoDup (map Mcp.name Weather.toolList).
Proof.
  split; simpl; repeat constructor; simpl; intuition discriminate.
Qed.

(* ================================================================== *)
(** ** Determinism                                                     *)
(* ================================================================== *)

Lemma atMost_weaken {A : Type} (p : Prog A) (n : nat) :
  atMost 0 p -> atMost n p.
Proof.
  destruct p; simpl; intros H; [exact I | exact I | contradiction].
Qed.

Lemma atMost_lift_bind {A B : Type} (n : nat) (c : Completion A) (f : A -> Prog B) :
  (forall a, atMost n (f a)) -> atMost n (bind (lift c) f).
Proof.
  destruct c; simpl; auto.
Qed.

Lemma atMost_await_bind {A B : Type} (n : nat) (op : Effect A) (f : A -> Prog B) :
  (forall a, atMost n (f a)) -> atMost (S n) (bind (await op) f).
Proof.
  intros H [x | e]; simpl; auto.
Qed.

Lemma atMost_tryCatch {A : Type} (n : nat) (body : Prog A) (handler : JsError -> Prog A) :
  atMost n body -> (forall e, atMost 0 (handler e)) -> atMost n (tryCatch body handler).
Proof.
  revert n. induction body as [a | e | T op k IH]; intros n Hb Hh; simpl.
  - exact I.
  - apply atMost_weaken, Hh.
  - destruct n as [| m]; [exact Hb |]. intros r. apply IH; [apply Hb | exact Hh].
Qed.

Lemma atMost_bind_none {A B : Type} (p : Prog A) (f : A -> Prog B) :
  atMost 0 p -> (forall a, atMost 0 (f a)) -> atMost 0 (bind p f).
Proof.
  destruct p; simpl; intros H Hf; [apply Hf | exact I | contradiction].
Qed.

Ltac atMost_steps :=
  repeat first
    [ apply atMost_lift_bind; intros ?
    | apply atMost_await_bind; intros ?
    | apply atMost_bind_none; [| intros ?]
    | match goal with
      | |- atMost _ (if ?b then _ else _) => destruct b
      | |- atMost _ (Ret _) => exact I
      | |- atMost _ (Throw _) => exact I
      end ].

(** Each handler performs at most one effect per call; the weather
    server performs none. *)
Lemma filesystem_callTool_atMost (name : string) (args : Value) :
  atMost 1 (Filesystem.callTool name args).
Proof.
  unfold Filesystem.callTool. destruct (negb (truthy args)); [exact I |].
  apply atMost_tryCatch; [| intros e; exact I].
  unfold Filesystem.tryBlock. atMost_steps.
Qed.

Lemma weather_callTool_atMost (name : string) (args : Value) :
  atMost 0 (Weather.callTool name args).
Proof.
  unfold Weather.callTool. destruct (negb (truthy args)); [exact I |].
  apply atMost_tryCatch; [| intros e; exact I].
  unfold Weather.tryBlock, Weather.buildForecast. atMost_steps.
Qed.

(** A body of at most one effect ends the same way in any two worlds
    that settle the effect it performs alike. *)
Lemma run_atMost_one {W1 W2 A : Type} (env1 : Env W1) (env2 : Env W2)
    (w1 : W1) (w2 : W2) (p : Prog A) :
  atMost 1 p ->
  Forall (settlesAlike env1 w1 env2 w2) (trace env1 p w1) ->
  fst (run env1 p w1) = fst (run env2 p w2).
Proof.
  intros Hp Hs. destruct p as [a | e | T op k]; simpl; try reflexivity.
  simpl in Hp, Hs.
  destruct (settle env1 op w1) as [r1 w1'] eqn:E1.
  apply Forall_inv in Hs. simpl in Hs. rewrite E1 in Hs. simpl in Hs.
  destruct (settle env2 op w2) as [r2 w2']. simpl in Hs. subst r2.
  specialize (Hp r1).
  destruct (k r1); simpl in Hp |- *; [reflexivity | reflexivity | contradiction].
Qed.

(** C8.  The result of [callTool] is decided by the request and by how
    the one [fs/promises] call the handler makes for it is settled: two
    invocations with the same request return the same result whenever
    that call gets the same reply, whatever else differs between the two
    worlds (other files, earlier calls, the state the call leaves); the
    weather server's result depends on the request alone.  Each
    invocation ends with one returned result. *)
Theorem callTool_deterministic :
  forall (W1 W2 : Type) (env1 : Env W1) (env2 : Env W2) (w1 : W1) (w2 : W2)
         (name : string) (args : Value),
    Forall (settlesAlike env1 w1 env2 w2)
           (trace env1 (Filesystem.callTool name args) w1) ->
    fst (run env1 (Filesystem.callTool name args) w1)
    = fst (run env2 (Filesystem.callTool name args) w2)
    /\ fst (run env1 (Weather.callTool name args) w1)
       = fst (run env2 (Weather.callTool name args) w2)
    /\ (exists r, fst (run env1 (Filesystem.callTool name args) w1) = Returned r)
    /\ (exists r, fst (run env1 (Weather.callTool name args) w1) = Returned r).
Proof.
  intros W1 W2 env1 env2 w1 w2 name args Hs.
  split; [apply run_atMost_one; [apply filesystem_callTool_atMost | exact Hs] |].
  split.
  - pose proof (weather_callTool_atMost name args) as H0.
    destruct (Weather.callTool name args); simpl in H0 |- *;
      [reflexivity | reflexivity | contradiction].
  - split.
    + destruct (filesystem_callTool_returns env1 w1 name args) as (r & w' & H).
      exists r. rewrite H. reflexivity.
    + destruct (weather_callTool_returns env1 w1 name args) as (r & w' & H).
      exists r. rewrite H. reflexivity.
Qed.

(** Two runs of the same requests in worlds that differ: a file that has
    nothing to do with the request has been added, or the same
    [write_file] call has been served once before. *)
Lemma callTool_deterministic_witness :
  (Forall (settlesAlike memory sampleFiles memory (("later.txt", "x") :: sampleFiles))
          (trace memory (Filesystem.callTool "read_file"
                           (VObj [("path", VStr "notes.txt")])) sampleFiles)
   /\ fst (run memory (Filesystem.callTool "read_file"
                         (VObj [("path", VStr "notes.txt")])) sampleFiles)
      = fst (run memory (Filesystem.callTool "read_file"
                           (VObj [("path", VStr "notes.txt")]))
                 (("later.txt", "x") :: sampleFiles)))
  /\ (Forall (settlesAlike memory sampleFiles memory (("a.txt", "x") :: sampleFiles))
             (trace memory (Filesystem.callTool "write_file"
                              (VObj [("path", VStr "a.txt"); ("content", VStr "x")]))
                    sampleFiles)
      /\ snd (run memory (Filesystem.callTool "write_file"
                            (VObj [("path", VStr "a.txt"); ("content", VStr "x")]))
                  sampleFiles)
         = ("a.txt", "x") :: sampleFiles
      /\ fst (run memory (Filesystem.callTool "write_file"
                            (VObj [("path", VStr "a.txt"); ("content", VStr "x")]))
                  sampleFiles)
         = fst (run memory (Filesystem.callTool "write_file"
                              (VObj [("path", VStr "a.txt"); ("content", VStr "x")]))
                    (("a.txt", "x") :: sampleFiles))).
Proof.
  assert (H1 : Forall (settlesAlike memory sampleFiles memory
                         (("later.txt", "x") :: sampleFiles))
                      (trace memory (Filesystem.callTool "read_file"
                                       (VObj [("path", VStr "notes.txt")])) sampleFiles))
    by (repeat constructor).
  assert (H2 : Forall (settlesAlike memory sampleFiles memory
                         (("a.txt", "x") :: sampleFiles))
                      (trace memory (Filesystem.callTool "write_file"
                                       (VObj [("path", VStr "a.txt");
                                              ("content", VStr "x")])) sampleFiles))
    by (repeat constructor).
  split; [split; [exact H1 |] | split; [exact H2 | split; [reflexivity |]]].
  - apply (callTool_deterministic Files Files memory memory sampleFiles
             (("later.txt", "x") :: sampleFiles) "read_file"
             (VObj [("path", VStr "notes.txt")]) H1).
  - apply (callTool_deterministic Files Files memory memory sampleFiles
             (("a.txt", "x") :: sampleFiles) "write_file"
             (VObj [("path", VStr "a.txt"); ("content", VStr "x")]) H2).
Defined.

(* ================================================================== *)
(** ** Induction on values, and what the conversions throw             *)
(* ================================================================== *)


(** The only error [ToString] throws. *)
Lemma toString_abrupt (v : Value) :
  forall e, toString v = Abrupt e -> e = cannotConvert.
Proof.
  induction v as [ | | [|] | n | | s | items IH | props _ | | name ]
    using Value_nested_ind; simpl; intros e H; try discriminate.
  - induction IH as [| x rest Hx _ IHrest]; [discriminate |].
    destruct (match x with VUndefined | VNull => Normal EmptyString | _ => toString x end)
      as [s | e0] eqn:Hfirst.
    + destruct rest as [| y rest]; [discriminate |].
      match type of H with
      | match ?j with _ => _ end = _ => destruct j as [t | e1] eqn:Hj
      end; [discriminate |].
      inversion H; subst. apply IHrest. reflexivity.
    + inversion H; subst. destruct x; try discriminate; apply Hx; exact Hfirst.
  - destruct (hasOwn props "toString"); inversion H; reflexivity.
Qed.

(* ================================================================== *)
(** ** What the [try] blocks throw                                     *)
(* ================================================================== *)

Lemma throws_run {W A : Type} (env : Env W) (Q : JsError -> Prop) (p : Prog A) :
  (forall (T : Type) (op : Effect T) (w : W) (e : JsError),
      fst (settle env op w) = Rejected e -> Q e) ->
  throws Q p ->
  forall w e w', run env p w = (Raised e, w') -> Q e.
Proof.
  intros Henv. induction p as [a | e0 | T op k IH]; simpl; intros HQ w e w' H.
  - discriminate.
  - inversion H; subst; assumption.
  - destruct (settle env op w) as [rep w1] eqn:Hs.
    eapply IH; [| exact H]. apply HQ. intros e1 ->.
    apply (Henv T op w). rewrite Hs. reflexivity.
Qed.

Lemma throws_bind {A B : Type} (Q : JsError -> Prop) (p : Prog A) (f : A -> Prog B) :
  throws Q p -> (forall a, throws Q (f a)) -> throws Q (bind p f).
Proof.
  induction p as [a | e | T op k IH]; simpl; auto.
Qed.

Lemma throws_lift {A : Type} (Q : JsError -> Prop) (c : Completion A) :
  (forall e, c = Abrupt e -> Q e) -> throws Q (lift c).
Proof.
  destruct c; simpl; auto.
Qed.

Lemma throws_await {A : Type} (Q : JsError -> Prop) (op : Effect A) :
  throws Q (await op).
Proof.
  intros [x | e] H; simpl; auto.
Qed.

Lemma getProp_wording (o : Value) (key : string) (e : JsError) :
  getProp o key = Abrupt e -> ownWording e.
Proof.
  destruct o; simpl; try discriminate.
  - intros H; inversion H; subst. unfold ownWording; simpl. discriminate.
  - intros H; inversion H; subst. unfold ownWording; simpl. discriminate.
  - destruct (ownProp props key); discriminate.
Qed.

Lemma toString_wording (v : Value) (e : JsError) :
  toString v = Abrupt e -> ownWording e.
Proof.
  intros H. rewrite (toString_abrupt v e H). unfold ownWording; simpl. discriminate.
Qed.

Lemma callToLowerCase_wording (v : Value) (e : JsError) :
  callToLowerCase v "args.city" = Abrupt e -> ownWording e.
Proof.
  destruct v; simpl; intros H; inversion H; subst; unfold ownWording; simpl; discriminate.
Qed.

Ltac throws_steps :=
  repeat first
    [ apply throws_await
    | apply throws_bind; [| intros ?]
    | apply throws_lift; intros ? ?
    | match goal with
      | |- throws _ (if ?b then _ else _) => destruct b
      | |- throws _ (Ret _) => exact I
      end ].

Lemma filesystem_tryBlock_throws (name : string) (args : Value) :
  throws ownWording (Filesystem.tryBlock name args).
Proof.
  unfold Filesystem.tryBlock. throws_steps;
    eauto using getProp_wording, toString_wording.
  simpl. unfold ownWording; simpl. discriminate.
Qed.

Lemma weather_tryBlock_throws (name : string) (args : Value) :
  throws ownWording (Weather.tryBlock name args).
Proof.
  unfold Weather.tryBlock. throws_steps;
    eauto using getProp_wording, toString_wording, callToLowerCase_wording;
    simpl; unfold ownWording; simpl; discriminate.
Qed.

(** C9.  With the arguments [{}] the guard does not fire: [callTool] is
    the [try] block under its [catch].  If the result is an error, its
    text is [Error: ] followed by the message of the error the [try]
    block raised, and, in a world whose own failures are not worded
    [No arguments provided], that is never the guard's text. *)
Theorem empty_arguments_pass_the_guard :
  forall (W : Type) (env : Env W) (w : W) (name : string),
    foreignMessages env ->
    (Filesystem.callTool name (VObj [])
     = tryCatch (Filesystem.tryBlock name (VObj [])) catchBlock
     /\ forall r w', run env (Filesystem.callTool name (VObj [])) w = (Returned r, w') ->
          r <> noArguments
          /\ (isError r = Some true ->
              content r <> content noArguments
              /\ exists e, run env (Filesystem.tryBlock name (VObj [])) w = (Raised e, w')
                           /\ content r = [ {| type := "text";
                                               text := Some ("Error: " ++ message e) |} ]))
    /\ (Weather.callTool name (VObj [])
        = tryCatch (Weather.tryBlock name (VObj [])) catchBlock
        /\ forall r w', run env (Weather.callTool name (VObj [])) w = (Returned r, w') ->
             r <> noArguments
             /\ (isError r = Some true ->
                 content r <> content noArguments
                 /\ exists e, run env (Weather.tryBlock name (VObj [])) w = (Raised e, w')
                              /\ content r = [ {| type := "text";
                                                  text := Some ("Error: " ++ message e) |} ])).
Proof.
  intros W env w name Henv.
  assert (K : forall (body : Prog ToolCallResult),
             returns (fun r => length (content r) = 1%nat /\ isError r = None) body ->
             throws ownWording body ->
             forall r w', run env (tryCatch body catchBlock) w = (Returned r, w') ->
               r <> noArguments
               /\ (isError r = Some true ->
                   content r <> content noArguments
                   /\ exists e, run env body w = (Raised e, w')
                                /\ content r = [ {| type := "text";
                                                    text := Some ("Error: " ++ message e) |} ])).
  { intros body Hret Hthr r w' H.
    destruct (run_callTool_shape env body w r w' H) as [Hb | (e & Hb & ->)].
    - destruct (returns_run env _ _ Hret _ _ _ Hb) as [_ Hnone].
      split.
      + intros ->. discriminate Hnone.
      + rewrite Hnone. discriminate.
    - assert (Hw : ownWording e) by (eapply (throws_run env ownWording body); eauto).
      assert (Hc : [ {| type := "text"; text := Some ("Error: " ++ message e) |} ]
                   <> content noArguments).
      { simpl. intros Heq. apply Hw. inversion Heq. reflexivity. }
      split.
      + intros Heq. apply Hc. rewrite <- Heq. reflexivity.
      + intros _. split; [exact Hc |]. exists e. split; [exact Hb | reflexivity]. }
  split; (split; [reflexivity |]).
  - apply K; [apply filesystem_tryBlock_returns | apply filesystem_tryBlock_throws].
  - apply K; [apply weather_tryBlock_returns | apply weather_tryBlock_throws].
Qed.

Lemma memory_foreignMessages : foreignMessages memory.
Proof.
  intros T op w e. unfold ownWording.
  destruct op as [p enc | p d enc | p | | line detail]; simpl.
  - destruct p; simpl; try (intros H; inversion H; subst; simpl; discriminate).
    destruct (readAt w s); simpl; intros H; inversion H; subst; simpl; discriminate.
  - destruct p; simpl; try (intros H; inversion H; subst; simpl; discriminate).
    destruct d; simpl; intros H; inversion H; subst; simpl; discriminate.
  - destruct p; simpl; try (intros H; inversion H; subst; simpl; discriminate).
    destruct s as [| a s]; simpl; [intros H; inversion H; subst; simpl; discriminate |].
    destruct a as [[] [] [] [] [] [] [] []]; simpl;
      try (intros H; inversion H; subst; simpl; discriminate).
    destruct s; simpl; intros H; inversion H; subst; simpl; discriminate.
  - discriminate.
  - discriminate.
Defined.

Lemma empty_arguments_pass_the_guard_witness :
  foreignMessages memory
  /\ run memory (Filesystem.callTool "read_file" (VObj [])) sampleFiles
     = (Returned {| content :=
                      [ {| type := "text";
                           text := Some "Error: The path argument must be of type string" |} ];
                    isError := Some true |}, sampleFiles)
  /\ {| content := [ {| type := "text";
                        text := Some "Error: The path argument must be of type string" |} ];
        isError := Some true |} <> noArguments.
Proof.
  split; [exact memory_foreignMessages |].
  split; [reflexivity |].
  destruct (empty_arguments_pass_the_guard Files memory sampleFiles "read_file"
              memory_foreignMessages) as [[_ H] _].
  apply (H _ sampleFiles). reflexivity.
Defined.

(* ================================================================== *)
(** ** The weather look-up                                             *)
(* ================================================================== *)

Lemma lowerChar_noCapital (c : ascii) :
  negb ((65 <=? nat_of_ascii (lowerChar c)) && (nat_of_ascii (lowerChar c) <=? 90))%nat
  = true.
Proof.
  destruct c as [[] [] [] [] [] [] [] []]; vm_compute; reflexivity.
Qed.

Lemma toLowerCase_noCapital (s : string) : noCapital (toLowerCase s) = true.
Proof.
  unfold noCapital. induction s as [| c s IH]; [reflexivity |].
  cbn [toLowerCase list_ascii_of_string forallb].
  rewrite lowerChar_noCapital. exact IH.
Qed.

(** Among the properties of [Object.prototype], only [__proto__] and
    [constructor] are spelled without a capital letter, so only they can
    be hit by a lower-cased key. *)
Lemma objectPrototypeGet_lowercase (proto : Value) (key : string) :
  noCapital key = true ->
  key <> "__proto__" -> key <> "constructor" ->
  objectPrototypeGet proto key = VUndefined.
Proof.
  intros Hlow H1 H2. unfold objectPrototypeGet.
  destruct (String.eqb_spec key "__proto__"); [contradiction |].
  destruct (String.eqb_spec key "constructor"); [contradiction |].
  unfold objectPrototypeNames, existsb.
  repeat match goal with
         | |- context [String.eqb key ?s] =>
             destruct (String.eqb_spec key s) as [-> | _];
             [first [contradiction | discriminate Hlow] |]
         end.
  reflexivity.
Qed.

Lemma ownProp_miss (props : list (string * Value)) (key : string) :
  ~ In key (map fst props) -> ownProp props key = None.
Proof.
  induction props as [| [k v] rest IH]; intros Hn; [reflexivity |].
  cbn [ownProp]. destruct (String.eqb_spec k key) as [-> | _].
  - exfalso. apply Hn. left; reflexivity.
  - apply IH. intros Hin. apply Hn. right; exact Hin.
Qed.

Lemma getProp_mockWeatherData_miss (key : string) :
  ~ In key Weather.cityKeys ->
  getProp Weather.mockWeatherData key
  = Normal (objectPrototypeGet VObjectPrototype key).
Proof.
  intros Hn. unfold Weather.mockWeatherData, getProp.
  rewrite ownProp_miss; [reflexivity | exact Hn].
Qed.

(** [get_weather] for a city that lower-cases to one of the five keys:
    the JSON text of that city's record. *)
Lemma get_weather_supported :
  forall (W : Type) (env : Env W) (w : W) (props : list (string * Value))
         (c : string) (rec : Value),
    ownProp props "city" = Some (VStr c) ->
    In (toLowerCase c) Weather.cityKeys ->
    getProp Weather.mockWeatherData (toLowerCase c) = Normal rec ->
    run env (Weather.callTool "get_weather" (VObj props)) w
    = (Returned {| content := [ {| type := "text"; text := stringify2 rec |} ];
                   isError := None |}, w)
    /\ exists t, stringify2 rec = Some t.
Proof.
  intros W env w props c rec Hc Hin Hrec.
  unfold Weather.callTool, Weather.tryBlock. cbn [truthy negb].
  replace (getProp (VObj props) "city") with (Normal (VStr c))
    by (unfold getProp; rewrite Hc; reflexivity).
  cbn [lift bind callToLowerCase String.eqb Ascii.eqb Bool.eqb].
  rewrite Hrec. cbn [lift bind].
  cbn [In Weather.cityKeys] in Hin.
  destruct Hin as [H | [H | [H | [H | [H | []]]]]]; rewrite <- H in Hrec;
    cbv in Hrec; inversion Hrec; subst rec;
    (split; [reflexivity | eexists; vm_compute; reflexivity]).
Qed.

(** [get_weather] for any other city, the two lower-case property names
    of [Object.prototype] apart: the error that names the city and lists
    the supported ones. *)
Lemma get_weather_unsupported :
  forall (W : Type) (env : Env W) (w : W) (props : list (string * Value)) (c : string),
    ownProp props "city" = Some (VStr c) ->
    ~ In (toLowerCase c) Weather.cityKeys ->
    toLowerCase c <> "__proto__" ->
    toLowerCase c <> "constructor" ->
    run env (Weather.callTool "get_weather" (VObj props)) w
    = (Returned {| content :=
                     [ {| type := "text";
                          text := Some ("Error: Weather data not available for " ++ c
                                          ++ ". Supported cities: New York, London, Tokyo, Paris, Sydney") |} ];
                   isError := Some true |}, w).
Proof.
  intros W env w props c Hc Hn H1 H2.
  unfold Weather.callTool, Weather.tryBlock. cbn [truthy negb].
  replace (getProp (VObj props) "city") with (Normal (VStr c))
    by (unfold getProp; rewrite Hc; reflexivity).
  cbn [lift bind callToLowerCase String.eqb Ascii.eqb Bool.eqb].
  assert (Hget : getProp Weather.mockWeatherData (toLowerCase c) = Normal VUndefined).
  { rewrite (getProp_mockWeatherData_miss _ Hn).
    rewrite objectPrototypeGet_lowercase; auto using toLowerCase_noCapital. }
  rewrite Hget. reflexivity.
Qed.

(** C10.  The look-up [mockWeatherData[city]] walks the prototype chain.
    The cities [__proto__] and [constructor] are none of the five keys,
    yet [get_weather] does not answer them with an error: the first gets
    the text [{}] (the serialization of [Object.prototype]), the second a
    text block whose [text] is [undefined] (the serialization of the
    function [Object]); in both results [isError] is absent. *)
Theorem get_weather_prototype_names :
  forall (W : Type) (env : Env W) (w : W),
    (toLowerCase "__proto__" = "__proto__" /\ ~ In "__proto__" Weather.cityKeys)
    /\ (toLowerCase "Constructor" = "constructor" /\ ~ In "constructor" Weather.cityKeys)
    /\ run env (Weather.callTool "get_weather" (VObj [("city", VStr "__proto__")])) w
       = (Returned {| content := [ {| type := "text"; text := Some "{}" |} ];
                      isError := None |}, w)
    /\ run env (Weather.callTool "get_weather" (VObj [("city", VStr "Constructor")])) w
       = (Returned {| content := [ {| type := "text"; text := None |} ];
                      isError := None |}, w).
Proof.
  intros W env w.
  split; [split; [reflexivity | simpl; intuition discriminate] |].
  split; [split; [reflexivity | simpl; intuition discriminate] |].
  split; reflexivity.
Qed.

(* ================================================================== *)
(** ** [JSON.stringify] loses nothing on data                          *)
(* ================================================================== *)

(** *** Strings *)

Lemma append_assoc (a b c : string) : (a ++ b) ++ c = a ++ (b ++ c).
Proof.
  induction a as [| x a IH]; simpl; [reflexivity | rewrite IH; reflexivity].
Qed.

Lemma append_inv_head (a b c : string) : a ++ b = a ++ c -> b = c.
Proof.
  induction a as [| x a IH]; simpl; intros H; [exact H |].
  inversion H. auto.
Qed.

(** *** Numbers *)

Lemma string_of_uint_chars (d : Decimal.uint) :
  forallb isNumberChar (list_ascii_of_string (NilEmpty.string_of_uint d)) = true.
Proof.
  induction d; simpl; auto.
Qed.

Lemma numberToString_chars (n : Z) :
  forallb isNumberChar (list_ascii_of_string (numberToString n)) = true.
Proof.
  assert (U : forall d, forallb isNumberChar
                 (list_ascii_of_string (NilZero.string_of_uint d)) = true).
  { intros d. destruct d; try apply (string_of_uint_chars (_ d)); try reflexivity;
    simpl; apply string_of_uint_chars. }
  unfold numberToString. destruct (Z.to_int n) as [d | d]; simpl.
  - apply U.
  - apply U.
Qed.

Lemma numberToString_inj (n m : Z) : numberToString n = numberToString m -> n = m.
Proof.
  unfold numberToString. intros H.
  assert (I : forall k, NilZero.int_of_string (NilZero.string_of_int (Z.to_int k))
                        = Some (Z.to_int k)).
  { intros k. apply NilZero.isi; destruct k; simpl; try discriminate;
      intros E; inversion E as [E']; apply (DecimalPos.Unsigned.to_uint_nonnil _ E'). }
  apply DecimalZ.to_int_inj.
  pose proof (I n) as Hn. rewrite H, I in Hn. congruence.
Qed.

Lemma numberToString_first (n : Z) :
  exists c rest, numberToString n = String c rest /\ isNumberChar c = true.
Proof.
  pose proof (numberToString_chars n) as H.
  destruct (numberToString n) as [| c rest] eqn:E.
  - exfalso. unfold numberToString in E.
    destruct (Z.to_int n) as [d | d] eqn:Ed; simpl in E; [| discriminate].
    destruct d; discriminate.
  - exists c, rest. split; [reflexivity |]. simpl in H.
    apply andb_true_iff in H. tauto.
Qed.

Lemma isNumberChar_not_stop (c : ascii) : isNumberChar c = true -> isStop c = false.
Proof.
  destruct c as [[] [] [] [] [] [] [] []]; vm_compute; congruence.
Qed.

(** Two runs of number characters, each followed by a stop, that read the
    same are the same run. *)
Lemma number_run_unique (a b r1 r2 : string) :
  forallb isNumberChar (list_ascii_of_string a) = true ->
  forallb isNumberChar (list_ascii_of_string b) = true ->
  stops r1 -> stops r2 ->
  a ++ r1 = b ++ r2 -> a = b /\ r1 = r2.
Proof.
  revert b. induction a as [| x a IH]; intros [| y b] Ha Hb S1 S2 H; simpl in *.
  - auto.
  - subst r1. simpl in S1. apply andb_true_iff in Hb as [Hy _].
    rewrite (isNumberChar_not_stop y Hy) in S1. discriminate.
  - subst r2. simpl in S2. apply andb_true_iff in Ha as [Hx _].
    rewrite (isNumberChar_not_stop x Hx) in S2. discriminate.
  - inversion H; subst. apply andb_true_iff in Ha as [_ Ha].
    apply andb_true_iff in Hb as [_ Hb].
    destruct (IH b Ha Hb S1 S2 H2) as [-> ->]. auto.
Qed.

(** *** Quoted strings *)

Lemma unescapeChar_escapeChar (c : ascii) (r : string) :
  unescapeChar (escapeChar c ++ r) = Some (c, r).
Proof.
  destruct c as [[] [] [] [] [] [] [] []]; reflexivity.
Qed.

Lemma escape_unique (a b r1 r2 : string) :
  escape a ++ dquote ++ r1 = escape b ++ dquote ++ r2 -> a = b /\ r1 = r2.
Proof.
  revert b. induction a as [| x a IH]; intros [| y b] H; simpl in H.
  - inversion H. auto.
  - apply (f_equal unescapeChar) in H. rewrite append_assoc in H.
    rewrite unescapeChar_escapeChar in H. discriminate.
  - apply (f_equal unescapeChar) in H. rewrite append_assoc in H.
    rewrite unescapeChar_escapeChar in H. discriminate.
  - rewrite !append_assoc in H.
    pose proof (f_equal unescapeChar H) as E.
    rewrite !unescapeChar_escapeChar in E. inversion E; subst.
    destruct (IH b H2) as [-> ->]. auto.
Qed.

Lemma quote_unique (a b r1 r2 : string) :
  quote a ++ r1 = quote b ++ r2 -> a = b /\ r1 = r2.
Proof.
  unfold quote. rewrite !append_assoc. intros H.
  apply append_inv_head in H.
  apply escape_unique. exact H.
Qed.

(** *** Values *)

Section Serialize.
Variable gap : string.

Local Abbreviation out := (Props.out gap).
Local Abbreviation member := (Props.member gap).
Local Abbreviation uniquelyRead := (Props.uniquelyRead gap).

Lemma joinWith_chain (sep close p : string) (ps : list string) :
  joinWith sep (p :: ps) ++ close = p ++ chain sep close ps.
Proof.
  revert p. induction ps as [| q ps IH]; intros p.
  - reflexivity.
  - change (joinWith sep (p :: q :: ps)) with (p ++ sep ++ joinWith sep (q :: ps)).
    rewrite !append_assoc. rewrite IH. reflexivity.
Qed.

Lemma serialize_data (indent : string) (v : Value) :
  isData v = true -> serialize gap indent v = Some (out indent v).
Proof.
  unfold Props.out. destruct (serialize gap indent v) eqn:E; [reflexivity |].
  destruct v; simpl in *; try discriminate.
  - destruct b; discriminate.
  - destruct (map _ items); discriminate.
  - destruct (flat_map _ props); discriminate.
Qed.

Lemma out_array (indent : string) (items : list Value) :
  out indent (VArr items) =
  match items with
  | [] => "[]"
  | x :: rest =>
      "[" ++ newline ++ (indent ++ gap) ++ out (indent ++ gap) x
          ++ chain ("," ++ newline ++ indent ++ gap) (newline ++ indent ++ "]")
                   (map (out (indent ++ gap)) rest)
  end.
Proof.
  destruct items as [| x rest]; [reflexivity |].
  unfold Props.out at 1. cbn [serialize map].
  change (fun x0 : Value => match serialize gap (indent ++ gap) x0 with
                            | Some t => t | None => "null" end)
    with (out (indent ++ gap)).
  rewrite <- joinWith_chain. cbn [map]. rewrite !append_assoc. reflexivity.
Qed.

Lemma members_data (indent : string) (props : list (string * Value)) :
  forallb (fun kv => isData (snd kv)) props = true ->
  flat_map (fun kv => match serialize gap indent (snd kv) with
                      | Some t => [quote (fst kv) ++ ": " ++ t]
                      | None => []
                      end) props
  = map (member indent) props.
Proof.
  induction props as [| kv props IH]; [reflexivity |].
  cbn [forallb flat_map map]. intros H. apply andb_true_iff in H as [Hd Hr].
  rewrite (serialize_data indent (snd kv) Hd). rewrite (IH Hr).
  reflexivity.
Qed.

Lemma out_object (indent : string) (props : list (string * Value)) :
  forallb (fun kv => isData (snd kv)) props = true ->
  out indent (VObj props) =
  match props with
  | [] => "{}"
  | kv :: rest =>
      "{" ++ newline ++ (indent ++ gap) ++ member (indent ++ gap) kv
          ++ chain ("," ++ newline ++ indent ++ gap) (newline ++ indent ++ "}")
                   (map (member (indent ++ gap)) rest)
  end.
Proof.
  intros H. unfold Props.out at 1. cbn [serialize].
  rewrite (members_data (indent ++ gap) props H).
  destruct props as [| kv rest]; [reflexivity |].
  cbn [map]. rewrite <- joinWith_chain. rewrite !append_assoc. reflexivity.
Qed.

Lemma isNumberChar_kind (c : ascii) : isNumberChar c = true -> kindOfChar c = KNumber.
Proof.
  destruct c as [[] [] [] [] [] [] [] []]; vm_compute; congruence.
Qed.

Lemma out_first (indent : string) (v : Value) :
  isData v = true ->
  exists c rest, out indent v = String c rest /\ kindOfChar c = kindOf v.
Proof.
  intros Hd. destruct v; try discriminate Hd.
  - eexists _, _. split; reflexivity.
  - destruct b; eexists _, _; split; reflexivity.
  - destruct (numberToString_first n) as (c & rest & E & Hc).
    exists c, rest. split; [exact E | apply isNumberChar_kind; exact Hc].
  - eexists _, _. split; reflexivity.
  - rewrite out_array. destruct items; eexists _, _; split; reflexivity.
  - rewrite (out_object indent props Hd).
    destruct props; eexists _, _; split; reflexivity.
Qed.

Lemma out_kind (indent : string) (v1 v2 : Value) (r1 r2 : string) :
  isData v1 = true -> isData v2 = true ->
  out indent v1 ++ r1 = out indent v2 ++ r2 -> kindOf v1 = kindOf v2.
Proof.
  intros H1 H2 E.
  destruct (out_first indent v1 H1) as (c1 & t1 & E1 & K1).
  destruct (out_first indent v2 H2) as (c2 & t2 & E2 & K2).
  rewrite E1, E2 in E. inversion E; subst. congruence.
Qed.

Lemma chain_stops (indent close' : string) (parts : list string) (r : string) :
  stops (chain ("," ++ newline ++ indent) (newline ++ close') parts ++ r).
Proof.
  destruct parts; reflexivity.
Qed.

Lemma elements_unique (indent close' : string) (items1 : list Value) :
  Forall uniquelyRead items1 ->
  forall (items2 : list Value) (r1 r2 : string),
    forallb isData items1 = true -> forallb isData items2 = true ->
    chain ("," ++ newline ++ indent) (newline ++ close') (map (out indent) items1) ++ r1
    = chain ("," ++ newline ++ indent) (newline ++ close') (map (out indent) items2) ++ r2 ->
    items1 = items2 /\ r1 = r2.
Proof.
  induction 1 as [| x l1 Hx _ IH]; intros [| y l2] r1 r2 D1 D2 E.
  - cbn [map chain] in E. apply append_inv_head in E. auto.
  - discriminate E.
  - discriminate E.
  - cbn [map chain forallb] in *.
    apply andb_true_iff in D1 as [Dx D1]. apply andb_true_iff in D2 as [Dy D2].
    rewrite !append_assoc in E. apply append_inv_head in E.
    apply append_inv_head in E. apply append_inv_head in E.
    destruct (Hx indent y _ _ Dx Dy (chain_stops _ _ _ _) (chain_stops _ _ _ _) E)
      as [-> E'].
    destruct (IH l2 r1 r2 D1 D2 E') as [-> ->]. auto.
Qed.

Lemma members_unique (indent close' : string) (props1 : list (string * Value)) :
  Forall (fun kv => uniquelyRead (snd kv)) props1 ->
  forall (props2 : list (string * Value)) (r1 r2 : string),
    forallb (fun kv => isData (snd kv)) props1 = true ->
    forallb (fun kv => isData (snd kv)) props2 = true ->
    chain ("," ++ newline ++ indent) (newline ++ close') (map (member indent) props1) ++ r1
    = chain ("," ++ newline ++ indent) (newline ++ close') (map (member indent) props2) ++ r2 ->
    props1 = props2 /\ r1 = r2.
Proof.
  induction 1 as [| [k1 x] l1 Hx _ IH]; intros [| [k2 y] l2] r1 r2 D1 D2 E.
  - cbn [map chain] in E. apply append_inv_head in E. auto.
  - discriminate E.
  - discriminate E.
  - cbn [map chain forallb snd] in *.
    apply andb_true_iff in D1 as [Dx D1]. apply andb_true_iff in D2 as [Dy D2].
    rewrite !append_assoc in E. apply append_inv_head in E.
    apply append_inv_head in E. apply append_inv_head in E.
    unfold Props.member in E. cbn [fst snd] in E. rewrite !append_assoc in E.
    apply quote_unique in E as [-> E]. apply (append_inv_head ": ") in E.
    destruct (Hx indent y _ _ Dx Dy (chain_stops _ _ _ _) (chain_stops _ _ _ _) E)
      as [-> E'].
    destruct (IH l2 r1 r2 D1 D2 E') as [-> ->]. auto.
Qed.

Lemma out_uniquelyRead (v : Value) : uniquelyRead v.
Proof.
  induction v as [ | | b | n | | s | items IH | props IH | | name ]
    using Value_nested_ind;
    intros indent v2 r1 r2 D1 D2 S1 S2 E; try discriminate D1;
    pose proof (out_kind indent _ _ _ _ D1 D2 E) as K;
    destruct v2; try discriminate D2; try discriminate K;
    try (match goal with b : bool |- _ => destruct b end; discriminate K).
  - apply (append_inv_head "null") in E. auto.
  - destruct b, b0; try discriminate K.
    + apply (append_inv_head "true") in E. auto.
    + apply (append_inv_head "false") in E. auto.
  - destruct (number_run_unique _ _ _ _ (numberToString_chars n)
                (numberToString_chars n0) S1 S2 E) as [En ->].
    apply numberToString_inj in En. subst. auto.
  - apply quote_unique in E as [-> ->]. auto.
  - rewrite !out_array in E.
    destruct items as [| x l1], items0 as [| y l2].
    + apply (append_inv_head "[]") in E. auto.
    + discriminate E.
    + discriminate E.
    + change (isData x && forallb isData l1 = true) in D1.
      change (isData y && forallb isData l2 = true) in D2.
      apply andb_true_iff in D1 as [Dx D1]. apply andb_true_iff in D2 as [Dy D2].
      inversion IH as [| ? ? Hx Hl]; subst.
      rewrite !append_assoc in E.
      apply (append_inv_head "[") in E. apply append_inv_head in E.
      apply append_inv_head in E. apply append_inv_head in E.
      destruct (Hx (indent ++ gap) y _ _ Dx Dy (chain_stops _ _ _ _)
                  (chain_stops _ _ _ _) E) as [-> E'].
      destruct (elements_unique _ _ l1 Hl l2 r1 r2 D1 D2 E') as [-> ->]. auto.
  - rewrite (out_object indent props D1), (out_object indent props0 D2) in E.
    destruct props as [| [k1 x] l1], props0 as [| [k2 y] l2].
    + apply (append_inv_head "{}") in E. auto.
    + discriminate E.
    + discriminate E.
    + change (isData x && forallb (fun kv => isData (snd kv)) l1 = true) in D1.
      change (isData y && forallb (fun kv => isData (snd kv)) l2 = true) in D2.
      apply andb_true_iff in D1 as [Dx D1]. apply andb_true_iff in D2 as [Dy D2].
      inversion IH as [| ? ? Hx Hl]; subst. cbn [snd] in Hx.
      rewrite !append_assoc in E.
      apply (append_inv_head "{") in E. apply append_inv_head in E.
      apply append_inv_head in E. apply append_inv_head in E.
      unfold Props.member at 1 3 in E. cbn [fst snd] in E. rewrite !append_assoc in E.
      apply quote_unique in E as [-> E]. apply (append_inv_head ": ") in E.
      destruct (Hx (indent ++ gap) y _ _ Dx Dy (chain_stops _ _ _ _)
                  (chain_stops _ _ _ _) E) as [-> E'].
      destruct (members_unique _ _ l1 Hl l2 r1 r2 D1 D2 E') as [-> ->]. auto.
Qed.
End Serialize.

Lemma append_empty_r (s : string) : s ++ EmptyString = s.
Proof.
  induction s as [| c s IH]; simpl; [reflexivity | rewrite IH; reflexivity].
Qed.

(** [JSON.stringify(_, null, 2)] is injective on data. *)
Lemma stringify2_lossless (v1 v2 : Value) :
  isData v1 = true -> isData v2 = true ->
  stringify2 v1 = stringify2 v2 -> v1 = v2.
Proof.
  intros D1 D2 E. unfold stringify2 in E.
  rewrite (serialize_data _ _ v1 D1), (serialize_data _ _ v2 D2) in E.
  inversion E as [E'].
  apply (out_uniquelyRead "  " v1 EmptyString v2 EmptyString EmptyString D1 D2 I I).
  rewrite !append_empty_r. exact E'.
Qed.

Lemma encode_lossless (p q : Payload) :
  sameKind p q -> dataPayload p = true -> dataPayload q = true ->
  encode p = encode q -> p = q.
Proof.
  destruct p as [s | v], q as [t | u]; simpl; intros K Dp Dq E; try contradiction.
  - inversion E. reflexivity.
  - f_equal. apply stringify2_lossless; assumption.
Qed.

Lemma encode_defined (p : Payload) :
  dataPayload p = true -> exists t, encode p = Some t.
Proof.
  destruct p as [s | v]; simpl; intros D.
  - eauto.
  - unfold stringify2. rewrite (serialize_data _ _ v D). eauto.
Qed.

(* ================================================================== *)
(** ** The envelope of a success                                       *)
(* ================================================================== *)

Lemma run_lift_bind {W A B : Type} (env : Env W) (c : Completion A)
    (f : A -> Prog B) (w : W) :
  run env (bind (lift c) f) w =
  match c with
  | Normal a => run env (f a) w
  | Abrupt e => (Raised e, w)
  end.
Proof. destruct c; reflexivity. Qed.

Lemma run_await_bind {W A B : Type} (env : Env W) (op : Effect A)
    (f : A -> Prog B) (w : W) :
  run env (bind (await op) f) w =
  match settle env op w with
  | (Fulfilled x, w') => run env (f x) w'
  | (Rejected e, w') => (Raised e, w')
  end.
Proof.
  simpl. destruct (settle env op w) as [[x | e] w']; reflexivity.
Qed.

Lemma item_isData (entries : list Dirent) :
  isData (VArr (map Filesystem.item entries)) = true.
Proof.
  simpl. induction entries as [| e entries IH]; simpl; auto.
Qed.

(** A successful return of the filesystem server's [try] block is the
    envelope of what the named tool hands over. *)
Lemma filesystem_tryBlock_success {W : Type} (env : Env W) (w : W)
    (name : string) (args : Value) (r : ToolCallResult) (w' : W) :
  run env (Filesystem.tryBlock name args) w = (Returned r, w') ->
  exists p, FilesystemHands env w args name p w'
            /\ dataPayload p = true /\ r = success p.
Proof.
  unfold Filesystem.tryBlock.
  destruct (String.eqb_spec name "read_file") as [-> | _].
  { rewrite run_lift_bind. destruct (getProp args "path") as [filePath | e] eqn:Hp;
      [| discriminate].
    rewrite run_await_bind.
    destruct (settle env (ReadFile filePath "utf-8") w) as [[content | e] w1] eqn:Hs;
      [| discriminate].
    simpl. intros H; inversion H; subst.
    exists (Plain content). split; [| split; reflexivity].
    econstructor; eassumption. }
  destruct (String.eqb_spec name "write_file") as [-> | _].
  { rewrite run_lift_bind. destruct (getProp args "path") as [filePath | e] eqn:Hp;
      [| discriminate].
    rewrite run_lift_bind. destruct (getProp args "content") as [content | e] eqn:Hc;
      [| discriminate].
    rewrite run_await_bind.
    destruct (settle env (WriteFile filePath content "utf-8") w) as [[[] | e] w1] eqn:Hs;
      [| discriminate].
    rewrite run_lift_bind. destruct (toString filePath) as [shown | e] eqn:Ht;
      [| discriminate].
    simpl. intros H; inversion H; subst.
    exists (Plain ("Successfully wrote to " ++ shown)). split; [| split; reflexivity].
    econstructor; eassumption. }
  destruct (String.eqb_spec name "list_directory") as [-> | _].
  { rewrite run_lift_bind. destruct (getProp args "path") as [dirPath | e] eqn:Hp;
      [| discriminate].
    rewrite run_await_bind.
    destruct (settle env (Readdir dirPath) w) as [[entries | e] w1] eqn:Hs;
      [| discriminate].
    simpl. intros H; inversion H; subst.
    exists (Json (VArr (map Filesystem.item entries))).
    split; [| split; [apply item_isData | reflexivity]].
    econstructor; eassumption. }
  discriminate.
Qed.

(** The same for the weather server, for a city among the five keys. *)
Lemma weather_tryBlock_success {W : Type} (env : Env W) (w : W)
    (name : string) (args : Value) (c : string) :
  getProp args "city" = Normal (VStr c) ->
  In (toLowerCase c) Weather.cityKeys ->
  In name (map Mcp.name Weather.toolList) ->
  exists p, WeatherHands args name p /\ dataPayload p = true
            /\ run env (Weather.tryBlock name args) w = (Returned (success p), w).
Proof.
  intros Hc Hk Hn. unfold Weather.tryBlock. rewrite Hc.
  cbn [lift bind callToLowerCase].
  cbn [In Weather.cityKeys] in Hk. cbn [In map Weather.toolList Mcp.name] in Hn.
  destruct Hn as [<- | [<- | []]]; cbn [String.eqb Ascii.eqb Bool.eqb];
    destruct Hk as [K | [K | [K | [K | [K | []]]]]];
    destruct (getProp Weather.mockWeatherData (toLowerCase c)) as [rec | e] eqn:Hrec;
    rewrite <- K in Hrec; vm_compute in Hrec; inversion Hrec; subst rec;
    cbn [lift bind truthy negb].
  1-5: eexists (Json _); split;
    [ eapply HandsWeather; [exact Hc | rewrite <- K; simpl; tauto
                           | rewrite <- K; reflexivity]
    | split; [vm_compute; reflexivity | reflexivity] ].
  all: match goal with
       | |- context [Weather.buildForecast ?cw] =>
           let f := eval vm_compute in (Weather.buildForecast cw) in
           match f with
           | Ret ?v => exists (Json v)
           end
       end;
    (split;
     [ eapply HandsForecast; [exact Hc | rewrite <- K; simpl; tauto
                             | rewrite <- K; reflexivity | reflexivity]
     | split; [vm_compute; reflexivity | reflexivity] ]).
Qed.

(** C4, as the code has it.  When a call does not end in an error, the
    result has no [isError] property at all, and its content is one text
    block that encodes what the tool handed over: the file's content as it
    is ([read_file]), the line [Successfully wrote to <path>]
    ([write_file]), or the [JSON.stringify(_, null, 2)] text of the entry
    list ([list_directory]), of the city's record ([get_weather]) or of
    the three-day list ([get_forecast]); for the weather tools this is
    stated for a city that lower-cases to one of the five keys.  The
    encoding is a function of what is handed over, it always yields a
    text, and on data it is injective: two payloads of the same kind with
    the same text are equal. *)
Theorem success_envelope :
  (forall (W : Type) (env : Env W) (w : W) (name : string) (args : Value)
          (r : ToolCallResult) (w' : W),
      run env (Filesystem.callTool name args) w = (Returned r, w') ->
      isError r <> Some true ->
      isError r = None
      /\ exists p, FilesystemHands env w args name p w'
                   /\ dataPayload p = true /\ r = success p)
  /\ (forall (W : Type) (env : Env W) (w : W) (name : string) (args : Value)
             (c : string) (r : ToolCallResult) (w' : W),
         getProp args "city" = Normal (VStr c) ->
         In (toLowerCase c) Weather.cityKeys ->
         In name (map Mcp.name Weather.toolList) ->
         run env (Weather.callTool name args) w = (Returned r, w') ->
         isError r = None
         /\ exists p, WeatherHands args name p
                      /\ dataPayload p = true /\ r = success p)
  /\ (forall p q : Payload,
         sameKind p q -> dataPayload p = true -> dataPayload q = true ->
         encode p = encode q -> p = q)
  /\ (forall p : Payload, dataPayload p = true -> exists t, encode p = Some t).
Proof.
  split; [| split; [| split]].
  - intros W env w name args r w' H Hok.
    unfold Filesystem.callTool in H. destruct (negb (truthy args)).
    + inversion H; subst. exfalso. apply Hok. reflexivity.
    + destruct (run_callTool_shape env _ w r w' H) as [Hb | (e & _ & ->)].
      * destruct (filesystem_tryBlock_success env w name args r w' Hb)
          as (p & Hp & Hd & ->).
        split; [reflexivity |]. exists p. auto.
      * exfalso. apply Hok. reflexivity.
  - intros W env w name args c r w' Hc Hk Hn H.
    destruct (weather_tryBlock_success env w name args c Hc Hk Hn)
      as (p & Hp & Hd & Hrun).
    assert (Ht : truthy args = true).
    { destruct args; simpl in Hc; try discriminate; try reflexivity;
        inversion Hc. }
    unfold Weather.callTool in H. rewrite Ht in H. cbn [negb] in H.
    rewrite run_tryCatch, Hrun in H. inversion H; subst.
    split; [reflexivity |]. exists p. auto.
  - exact encode_lossless.
  - exact encode_defined.
Qed.

(** C4, as the claim has it, fails on the flag: [get_weather] for London
    succeeds, and [isError] of the result is absent, not [false]. *)
Lemma get_weather_london_isError_absent :
  In "get_weather" (map Mcp.name Weather.toolList)
  /\ run memory (Weather.callTool "get_weather" (VObj [("city", VStr "London")])) sampleFiles
     = (Returned (success (Json (Weather.record "London" 18 "C" "Rainy" 80 15))),
        sampleFiles)
  /\ isError (success (Json (Weather.record "London" 18 "C" "Rainy" 80 15))) = None
  /\ isError (success (Json (Weather.record "London" 18 "C" "Rainy" 80 15))) <> Some false.
Proof.
  split; [simpl; tauto |]. split; [reflexivity |]. split; [reflexivity | discriminate].
Qed.

Lemma success_envelope_witness :
  (run memory (Filesystem.callTool "list_directory" (VObj [("path", VStr "/")])) sampleFiles
   = (Returned (success (Json (VArr [ Filesystem.item (mkDirent "notes.txt" false);
                                      Filesystem.item (mkDirent "todo.md" false) ]))),
      sampleFiles)
   /\ exists p, FilesystemHands memory sampleFiles (VObj [("path", VStr "/")])
                   "list_directory" p sampleFiles
                 /\ dataPayload p = true
                 /\ success (Json (VArr [ Filesystem.item (mkDirent "notes.txt" false);
                                          Filesystem.item (mkDirent "todo.md" false) ]))
                    = success p)
  /\ (exists p, WeatherHands (VObj [("city", VStr "TOKYO")]) "get_forecast" p
                 /\ dataPayload p = true
                 /\ fst (run memory (Weather.callTool "get_forecast"
                                       (VObj [("city", VStr "TOKYO")])) sampleFiles)
                    = Returned (success p))
  /\ (forall q : Payload,
        sameKind q (Json (VArr [VStr "a"; VNum 1])) -> dataPayload q = true ->
        encode q = encode (Json (VArr [VStr "a"; VNum 1])) ->
        q = Json (VArr [VStr "a"; VNum 1])).
Proof.
  destruct success_envelope as (F & G & L & _).
  split; [split; [reflexivity |] | split].
  - apply (F Files memory sampleFiles "list_directory" (VObj [("path", VStr "/")])).
    + reflexivity.
    + discriminate.
  - edestruct (G Files memory sampleFiles "get_forecast" (VObj [("city", VStr "TOKYO")])
                 "TOKYO") as (_ & p & Hp & Hd & Hr);
      [reflexivity | simpl; tauto | simpl; tauto | reflexivity |].
    exists p. split; [exact Hp |]. split; [exact Hd |].
    rewrite <- Hr. reflexivity.
  - intros q K D E. apply L; [exact K | exact D | reflexivity | exact E].
Defined.

(* ================================================================== *)
(** ** Further properties of the two servers                           *)
(* ================================================================== *)

Import Observations.

Lemma getProp_truthy (o : Value) (key : string) :
  truthy o = true -> getProp o key = Normal (valueAt o key).
Proof.
  unfold valueAt. destruct o; simpl; try discriminate; intros _; try reflexivity.
  destruct (ownProp props key); reflexivity.
Qed.

Lemma trace_tryCatch_catchBlock {W : Type} (env : Env W) (body : Prog ToolCallResult)
    (w : W) :
  trace env (tryCatch body catchBlock) w = trace env body w.
Proof.
  revert w. induction body as [a | e | T op k IH]; intros w; simpl; try reflexivity.
  destruct (settle env op w) as [r w']. rewrite IH. reflexivity.
Qed.

Lemma trace_lift_bind {W A B : Type} (env : Env W) (c : Completion A)
    (f : A -> Prog B) (w : W) :
  trace env (bind (lift c) f) w =
  match c with
  | Normal a => trace env (f a) w
  | Abrupt _ => []
  end.
Proof. destruct c; reflexivity. Qed.

Lemma trace_await_bind {W A B : Type} (env : Env W) (op : Effect A)
    (f : A -> Prog B) (w : W) :
  trace env (bind (await op) f) w =
  Performed op :: match settle env op w with
                  | (Fulfilled x, w') => trace env (f x) w'
                  | (Rejected _, _) => []
                  end.
Proof.
  simpl. destruct (settle env op w) as [[x | e] w']; reflexivity.
Qed.

(** X1.  The filesystem server performs at most the one [fs/promises]
    call its tool stands for, with the path (and content) read from the
    arguments as they are and the encoding [utf-8]: [read_file] reads,
    [write_file] writes, [list_directory] lists; a call without arguments
    or with an unknown tool name touches nothing.  In particular a file is
    written only by [write_file]. *)
Theorem filesystem_effects :
  forall (W : Type) (env : Env W) (w : W) (name : string) (args : Value),
    trace env (Filesystem.callTool name args) w
    = (if negb (truthy args) then []
       else if String.eqb name "read_file"
            then [Performed (ReadFile (valueAt args "path") "utf-8")]
       else if String.eqb name "write_file"
            then [Performed (WriteFile (valueAt args "path") (valueAt args "content")
                                       "utf-8")]
       else if String.eqb name "list_directory"
            then [Performed (Readdir (valueAt args "path"))]
       else [])
    /\ existsb isWrite (trace env (Filesystem.callTool name args) w)
       = truthy args && String.eqb name "write_file".
Proof.
  intros W env w name args.
  assert (E : trace env (Filesystem.callTool name args) w
              = (if negb (truthy args) then []
                 else if String.eqb name "read_file"
                      then [Performed (ReadFile (valueAt args "path") "utf-8")]
                 else if String.eqb name "write_file"
                      then [Performed (WriteFile (valueAt args "path")
                                                 (valueAt args "content") "utf-8")]
                 else if String.eqb name "list_directory"
                      then [Performed (Readdir (valueAt args "path"))]
                 else [])).
  { unfold Filesystem.callTool. destruct (truthy args) eqn:Ht; [| reflexivity].
    cbn [negb]. rewrite trace_tryCatch_catchBlock. unfold Filesystem.tryBlock.
    destruct (String.eqb name "read_file").
    { rewrite trace_lift_bind, (getProp_truthy args "path" Ht), trace_await_bind.
      destruct (settle env _ w) as [[x | e] w']; reflexivity. }
    destruct (String.eqb name "write_file").
    { rewrite trace_lift_bind, (getProp_truthy args "path" Ht).
      rewrite trace_lift_bind, (getProp_truthy args "content" Ht), trace_await_bind.
      destruct (settle env _ w) as [[x | e] w']; [| reflexivity].
      rewrite trace_lift_bind. destruct (toString (valueAt args "path")); reflexivity. }
    destruct (String.eqb name "list_directory").
    { rewrite trace_lift_bind, (getProp_truthy args "path" Ht), trace_await_bind.
      destruct (settle env _ w) as [[x | e] w']; reflexivity. }
    reflexivity. }
  split; [exact E |]. rewrite E.
  destruct (truthy args); [| reflexivity]. cbn [negb andb].
  destruct (String.eqb_spec name "read_file") as [-> | _]; [reflexivity |].
  destruct (String.eqb name "write_file"); [reflexivity |].
  destruct (String.eqb name "list_directory"); reflexivity.
Qed.

(** X2.  With arguments present, each tool of the filesystem server
    answers as its one [fs/promises] call settles, and leaves the world as
    that call left it.  Fulfilled: [read_file] gives the content unchanged,
    [write_file] the line [Successfully wrote to <path>], [list_directory]
    the JSON text of the entries in the order reported.  Rejected: the
    error's message, word for word, after [Error: ].  The handler checks
    nothing itself: a missing [path] or [content] goes to the call as
    [undefined]. *)
Theorem filesystem_tools_follow_fs :
  forall (W : Type) (env : Env W) (w : W) (args : Value),
    truthy args = true ->
    run env (Filesystem.callTool "read_file" args) w
    = (let (r, w') := settle env (ReadFile (valueAt args "path") "utf-8") w in
       (Returned match r with
                 | Fulfilled content => success (Plain content)
                 | Rejected e => errorEnvelope (message e)
                 end, w'))
    /\ run env (Filesystem.callTool "write_file" args) w
       = (let (r, w') := settle env (WriteFile (valueAt args "path")
                                               (valueAt args "content") "utf-8") w in
          (Returned match r with
                    | Fulfilled _ =>
                        match toString (valueAt args "path") with
                        | Normal shown => success (Plain ("Successfully wrote to " ++ shown))
                        | Abrupt e => errorEnvelope (message e)
                        end
                    | Rejected e => errorEnvelope (message e)
                    end, w'))
    /\ run env (Filesystem.callTool "list_directory" args) w
       = (let (r, w') := settle env (Readdir (valueAt args "path")) w in
          (Returned match r with
                    | Fulfilled entries =>
                        success (Json (VArr (map Filesystem.item entries)))
                    | Rejected e => errorEnvelope (message e)
                    end, w')).
Proof.
  intros W env w args Ht. unfold Filesystem.callTool. rewrite Ht. cbn [negb].
  rewrite !run_tryCatch. unfold Filesystem.tryBlock.
  cbn [String.eqb Ascii.eqb Bool.eqb].
  rewrite !run_lift_bind, !(getProp_truthy args "path" Ht).
  rewrite run_lift_bind, (getProp_truthy args "content" Ht).
  rewrite !run_await_bind.
  split; [| split].
  - destruct (settle env (ReadFile _ _) w) as [[x | e] w']; reflexivity.
  - destruct (settle env (WriteFile _ _ _) w) as [[x | e] w']; [| reflexivity].
    rewrite run_lift_bind. destruct (toString (valueAt args "path")); reflexivity.
  - destruct (settle env (Readdir _) w) as [[x | e] w']; reflexivity.
Qed.

Lemma filesystem_tools_follow_fs_witness :
  truthy (VObj [("path", VStr "missing.txt")]) = true
  /\ run memory (Filesystem.callTool "read_file" (VObj [("path", VStr "missing.txt")]))
         sampleFiles
     = (Returned (errorEnvelope
                    "ENOENT: no such file or directory, open 'missing.txt'"),
        sampleFiles)
  /\ run memory (Filesystem.callTool "write_file" (VObj [("path", VStr "missing.txt")]))
         sampleFiles
     = (Returned (errorEnvelope "The path argument must be of type string"), sampleFiles).
Proof.
  split; [reflexivity |].
  destruct (filesystem_tools_follow_fs Files memory sampleFiles
              (VObj [("path", VStr "missing.txt")]) eq_refl) as (R & Wr & _).
  split; [rewrite R | rewrite Wr]; reflexivity.
Defined.

(** X3.  Tool names are matched exactly.  With arguments present, any
    name other than the three registered ones (another letter case
    included) gets [Error: Unknown tool: <name>] from the filesystem
    server, the world untouched, whatever the arguments hold. *)
Theorem filesystem_unknown_name :
  forall (W : Type) (env : Env W) (w : W) (name : string) (args : Value),
    truthy args = true ->
    ~ In name (map Mcp.name Filesystem.toolList) ->
    run env (Filesystem.callTool name args) w
    = (Returned (errorEnvelope ("Unknown tool: " ++ name)), w)
    /\ trace env (Filesystem.callTool name args) w = [].
Proof.
  intros W env w name args Ht Hn.
  unfold Filesystem.callTool, Filesystem.tryBlock. rewrite Ht. cbn [negb].
  rewrite trace_tryCatch_catchBlock.
  destruct (String.eqb_spec name "read_file") as [-> | _];
    [exfalso; apply Hn; simpl; auto |].
  destruct (String.eqb_spec name "write_file") as [-> | _];
    [exfalso; apply Hn; simpl; auto |].
  destruct (String.eqb_spec name "list_directory") as [-> | _];
    [exfalso; apply Hn; simpl; auto |].
  split; reflexivity.
Qed.

Lemma filesystem_unknown_name_witness :
  (truthy (VObj [("path", VStr "notes.txt")]) = true
   /\ ~ In "Read_File" (map Mcp.name Filesystem.toolList))
  /\ run memory (Filesystem.callTool "Read_File" (VObj [("path", VStr "notes.txt")]))
         sampleFiles
     = (Returned (errorEnvelope "Unknown tool: Read_File"), sampleFiles).
Proof.
  assert (Hn : ~ In "Read_File" (map Mcp.name Filesystem.toolList))
    by (simpl; intros [H | [H | [H | []]]]; discriminate H).
  split; [split; [reflexivity | exact Hn] |].
  apply (filesystem_unknown_name Files memory sampleFiles "Read_File"
           (VObj [("path", VStr "notes.txt")]) eq_refl Hn).
Defined.

Lemma tryCatch_not_guard {W : Type} (env : Env W) (body : Prog ToolCallResult) (w : W) :
  foreignMessages env ->
  returns (fun r => length (content r) = 1%nat /\ isError r = None) body ->
  throws ownWording body ->
  fst (run env (tryCatch body catchBlock) w) <> Returned noArguments.
Proof.
  intros Henv Hret Hthr. rewrite run_tryCatch.
  destruct (run env body w) as [[r | e] w'] eqn:Hb; simpl.
  - destruct (returns_run env _ _ Hret _ _ _ Hb) as [_ Hnone].
    intros H. inversion H; subst. discriminate Hnone.
  - assert (Hw : ownWording e) by (eapply (throws_run env ownWording body); eauto).
    intros H. inversion H as [Hm]. apply Hw. exact Hm.
Qed.

(** X4.  The missing-arguments envelope is the answer exactly when the
    arguments are falsy: not only absent or [null], also [false], [0],
    [NaN] and the empty string; and no call with truthy arguments ever
    gets it (in a world whose own failures are not worded
    [No arguments provided]). *)
Theorem guard_exactly_falsy :
  forall (W : Type) (env : Env W) (w : W) (name : string) (args : Value),
    foreignMessages env ->
    (fst (run env (Filesystem.callTool name args) w) = Returned noArguments
     <-> truthy args = false)
    /\ (fst (run env (Weather.callTool name args) w) = Returned noArguments
        <-> truthy args = false).
Proof.
  intros W env w name args Henv.
  split; split.
  - unfold Filesystem.callTool. destruct (truthy args); [| reflexivity].
    cbn [negb]. intros H. exfalso.
    apply (tryCatch_not_guard env _ w Henv (filesystem_tryBlock_returns name args)
             (filesystem_tryBlock_throws name args) H).
  - intros Ht. unfold Filesystem.callTool. rewrite Ht. reflexivity.
  - unfold Weather.callTool. destruct (truthy args); [| reflexivity].
    cbn [negb]. intros H. exfalso.
    apply (tryCatch_not_guard env _ w Henv (weather_tryBlock_returns name args)
             (weather_tryBlock_throws name args) H).
  - intros Ht. unfold Weather.callTool. rewrite Ht. reflexivity.
Qed.

Lemma guard_exactly_falsy_witness :
  foreignMessages memory
  /\ truthy (VStr EmptyString) = false
  /\ fst (run memory (Filesystem.callTool "read_file" (VStr EmptyString)) sampleFiles)
     = Returned noArguments
  /\ truthy (VNum 0) = false
  /\ fst (run memory (Weather.callTool "get_weather" (VNum 0)) sampleFiles)
     = Returned noArguments.
Proof.
  split; [exact memory_foreignMessages |].
  split; [reflexivity |].
  split; [apply (guard_exactly_falsy Files memory sampleFiles "read_file"
                   (VStr EmptyString) memory_foreignMessages); reflexivity |].
  split; [reflexivity |].
  apply (guard_exactly_falsy Files memory sampleFiles "get_weather" (VNum 0)
           memory_foreignMessages); reflexivity.
Defined.

(** X5.  A result has one of two shapes, in both servers: a success with
    no [isError] property and one content block, or the error envelope,
    [isError: true] with the one text block [Error: <message>].  So
    [isError] is never [false], and no result carries the error flag
    together with anything but an error text. *)
Theorem envelope_shapes :
  forall (W : Type) (env : Env W) (w : W) (name : string) (args : Value),
    (exists r w', run env (Filesystem.callTool name args) w = (Returned r, w')
                  /\ ((isError r = None /\ length (content r) = 1%nat)
                      \/ exists m, r = errorEnvelope m))
    /\ (exists r w', run env (Weather.callTool name args) w = (Returned r, w')
                     /\ ((isError r = None /\ length (content r) = 1%nat)
                         \/ exists m, r = errorEnvelope m)).
Proof.
  intros W env w name args.
  assert (K : forall body : Prog ToolCallResult,
             returns (fun r => length (content r) = 1%nat /\ isError r = None) body ->
             exists r w', run env (if negb (truthy args) then Ret noArguments
                                   else tryCatch body catchBlock) w = (Returned r, w')
                          /\ ((isError r = None /\ length (content r) = 1%nat)
                              \/ exists m, r = errorEnvelope m)).
  { intros body Hret. destruct (negb (truthy args)).
    - exists noArguments, w. split; [reflexivity |]. right.
      exists "No arguments provided". reflexivity.
    - rewrite run_tryCatch. destruct (run env body w) as [[r | e] w'] eqn:Hb.
      + exists r, w'. split; [reflexivity |]. left.
        destruct (returns_run env _ _ Hret _ _ _ Hb). auto.
      + exists (errorEnvelope (message e)), w'. split; [reflexivity |].
        right. exists (message e). reflexivity. }
  split.
  - apply (K (Filesystem.tryBlock name args)), filesystem_tryBlock_returns.
  - apply (K (Weather.tryBlock name args)), weather_tryBlock_returns.
Qed.

Lemma run_atMost_none {W A : Type} (env : Env W) (p : Prog A) (w : W) :
  atMost 0 p ->
  trace env p w = [] /\ snd (run env p w) = w
  /\ forall (W' : Type) (env' : Env W') (w' : W'),
       fst (run env p w) = fst (run env' p w').
Proof.
  destruct p; simpl; intros H; [auto | auto | contradiction].
Qed.

(** X6.  The weather server touches nothing: whatever the request, its
    handler performs no effect, leaves the world as it was, and returns a
    result that does not depend on the world it runs in. *)
Theorem weather_touches_nothing :
  forall (W W' : Type) (env : Env W) (env' : Env W') (w : W) (w' : W')
         (name : string) (args : Value),
    trace env (Weather.callTool name args) w = []
    /\ snd (run env (Weather.callTool name args) w) = w
    /\ fst (run env (Weather.callTool name args) w)
       = fst (run env' (Weather.callTool name args) w').
Proof.
  intros W W' env env' w w' name args.
  destruct (run_atMost_none env (Weather.callTool name args) w
              (weather_callTool_atMost name args)) as (T & S & F).
  auto.
Qed.

Lemma item_injective (e1 e2 : Dirent) :
  Filesystem.item e1 = Filesystem.item e2 -> e1 = e2.
Proof.
  destruct e1 as [n1 d1], e2 as [n2 d2]. unfold Filesystem.item. simpl.
  intros H. inversion H as [[Hn Hd]]. subst.
  destruct d1, d2; try reflexivity; discriminate Hd.
Qed.

(** X7.  The text [list_directory] returns loses nothing of the listing:
    two lists of entries (names and kinds, in order) that are given the
    same text are the same list. *)
Theorem list_directory_text_lossless :
  forall (entries1 entries2 : list Dirent),
    stringify2 (VArr (map Filesystem.item entries1))
    = stringify2 (VArr (map Filesystem.item entries2)) ->
    entries1 = entries2.
Proof.
  intros es1 es2 H.
  apply stringify2_lossless in H; [| apply item_isData | apply item_isData].
  inversion H as [Hm]. clear H. revert es2 Hm.
  induction es1 as [| e1 es1 IH]; intros [| e2 es2] Hm; cbn [map] in Hm;
    try discriminate; [reflexivity |].
  injection Hm as Hn Hd Hr.
  rewrite (IH es2 Hr). f_equal. apply item_injective.
  unfold Filesystem.item. rewrite Hn, Hd. reflexivity.
Qed.

Lemma list_directory_text_lossless_witness :
  stringify2 (VArr (map Filesystem.item
                        (rev [mkDirent "src" true; mkDirent "notes.txt" false])))
  = stringify2 (VArr (map Filesystem.item [mkDirent "notes.txt" false; mkDirent "src" true]))
  /\ rev [mkDirent "src" true; mkDirent "notes.txt" false]
     = [mkDirent "notes.txt" false; mkDirent "src" true].
Proof.
  split; [reflexivity |].
  apply list_directory_text_lossless. reflexivity.
Defined.

(** X8.  The weather server needs [args.city] to be a string before it
    looks at anything else: with arguments present and a [city] that is
    missing or not a string, every tool name, registered or not, gets the
    engine's [TypeError] as the error text. *)
Theorem weather_city_must_be_string :
  forall (W : Type) (env : Env W) (w : W) (name : string) (args : Value),
    truthy args = true ->
    isString (valueAt args "city") = false ->
    run env (Weather.callTool name args) w
    = (Returned (errorEnvelope
                   match valueAt args "city" with
                   | VUndefined =>
                       "Cannot read properties of undefined (reading 'toLowerCase')"
                   | VNull => "Cannot read properties of null (reading 'toLowerCase')"
                   | _ => "args.city.toLowerCase is not a function"
                   end), w).
Proof.
  intros W env w name args Ht Hs.
  unfold Weather.callTool, Weather.tryBlock. rewrite Ht. cbn [negb].
  rewrite run_tryCatch, run_lift_bind, (getProp_truthy args "city" Ht).
  rewrite run_lift_bind.
  destruct (valueAt args "city"); try discriminate Hs; reflexivity.
Qed.

Lemma weather_city_must_be_string_witness :
  (truthy (VObj [("city", VNum 42)]) = true
   /\ isString (valueAt (VObj [("city", VNum 42)]) "city") = false)
  /\ run memory (Weather.callTool "get_forecast" (VObj [("city", VNum 42)])) sampleFiles
     = (Returned (errorEnvelope "args.city.toLowerCase is not a function"), sampleFiles)
  /\ run memory (Weather.callTool "get_weather" (VObj [("town", VStr "Paris")])) sampleFiles
     = (Returned (errorEnvelope
                    "Cannot read properties of undefined (reading 'toLowerCase')"),
        sampleFiles).
Proof.
  split; [split; reflexivity |].
  split.
  - apply (weather_city_must_be_string Files memory sampleFiles "get_forecast"
             (VObj [("city", VNum 42)]) eq_refl eq_refl).
  - apply (weather_city_must_be_string Files memory sampleFiles "get_weather"
             (VObj [("town", VStr "Paris")]) eq_refl eq_refl).
Defined.

Lemma valueAt_string_truthy (o : Value) (key c : string) :
  valueAt o key = VStr c -> truthy o = true.
Proof.
  unfold valueAt. destruct o; simpl; try discriminate; try reflexivity.
Qed.

Lemma weather_tryBlock_string_city (name : string) (args : Value) (c : string) :
  valueAt args "city" = VStr c ->
  Weather.tryBlock name args
  = (if String.eqb name "get_weather" then
       bind (lift (getProp Weather.mockWeatherData (toLowerCase c)))
            (fun weather =>
               if negb (truthy weather)
               then Throw (Error (Weather.unavailable c))
               else Ret {| content := [ {| type := "text"; text := stringify2 weather |} ];
                           isError := None |})
     else if String.eqb name "get_forecast" then
       bind (lift (getProp Weather.mockWeatherData (toLowerCase c)))
            (fun currentWeather =>
               if negb (truthy currentWeather)
               then Throw (Error (Weather.unavailable c))
               else bind (Weather.buildForecast currentWeather)
                      (fun forecast =>
                         Ret {| content := [ {| type := "text";
                                                text := stringify2 forecast |} ];
                                isError := None |}))
     else Throw (Error ("Unknown tool: " ++ name))).
Proof.
  intros Hc. unfold Weather.tryBlock.
  rewrite (getProp_truthy args "city" (valueAt_string_truthy _ _ _ Hc)), Hc.
  reflexivity.
Qed.

Lemma getProp_mockWeatherData (key : string) :
  getProp Weather.mockWeatherData key
  = Normal (valueAt Weather.mockWeatherData key).
Proof. apply getProp_truthy. reflexivity. Qed.

(** X9.  The weather tools read the city without regard to letter case:
    two calls of the same tool whose cities differ only in case either
    return the same result, or both fail (each error text echoing the
    city as it was spelled in its own call). *)
Theorem weather_case_insensitive :
  forall (W : Type) (env : Env W) (w : W) (name : string) (args1 args2 : Value)
         (c1 c2 : string),
    valueAt args1 "city" = VStr c1 ->
    valueAt args2 "city" = VStr c2 ->
    toLowerCase c1 = toLowerCase c2 ->
    fst (run env (Weather.callTool name args1) w)
    = fst (run env (Weather.callTool name args2) w)
    \/ (fst (run env (Weather.callTool name args1) w)
        = Returned (errorEnvelope (Weather.unavailable c1))
        /\ fst (run env (Weather.callTool name args2) w)
           = Returned (errorEnvelope (Weather.unavailable c2))).
Proof.
  intros W env w name args1 args2 c1 c2 H1 H2 Hl.
  unfold Weather.callTool.
  rewrite (valueAt_string_truthy _ _ _ H1), (valueAt_string_truthy _ _ _ H2).
  cbn [negb].
  rewrite (weather_tryBlock_string_city name args1 c1 H1).
  rewrite (weather_tryBlock_string_city name args2 c2 H2).
  rewrite Hl, getProp_mockWeatherData. cbn [lift bind].
  destruct (String.eqb name "get_weather").
  { destruct (truthy (valueAt Weather.mockWeatherData (toLowerCase c2)));
      cbn [negb]; [left; reflexivity | right; split; reflexivity]. }
  destruct (String.eqb name "get_forecast").
  { destruct (truthy (valueAt Weather.mockWeatherData (toLowerCase c2)));
      cbn [negb]; [left; reflexivity | right; split; reflexivity]. }
  left; reflexivity.
Qed.

Lemma weather_case_insensitive_witness :
  (valueAt (VObj [("city", VStr "new YORK")]) "city" = VStr "new YORK"
   /\ valueAt (VObj [("city", VStr "New York"); ("units", VStr "metric")]) "city"
      = VStr "New York"
   /\ toLowerCase "new YORK" = toLowerCase "New York")
  /\ fst (run memory (Weather.callTool "get_forecast" (VObj [("city", VStr "new YORK")]))
              sampleFiles)
     = fst (run memory (Weather.callTool "get_forecast"
                          (VObj [("city", VStr "New York"); ("units", VStr "metric")]))
                sampleFiles).
Proof.
  split; [repeat split |].
  destruct (weather_case_insensitive Files memory sampleFiles "get_forecast"
              (VObj [("city", VStr "new YORK")])
              (VObj [("city", VStr "New York"); ("units", VStr "metric")])
              "new YORK" "New York" eq_refl eq_refl eq_refl) as [H | [H _]].
  - exact H.
  - discriminate H.
Defined.

(** X10.  Both weather tools reject a city that lower-cases to none of
    the five keys (and to neither [__proto__] nor [constructor]) with the
    same error, which echoes the city exactly as it was given and lists
    the supported cities. *)
Theorem unsupported_city_rejected :
  forall (W : Type) (env : Env W) (w : W) (name : string) (args : Value) (c : string),
    In name (map Mcp.name Weather.toolList) ->
    valueAt args "city" = VStr c ->
    ~ In (toLowerCase c) Weather.cityKeys ->
    toLowerCase c <> "__proto__" ->
    toLowerCase c <> "constructor" ->
    run env (Weather.callTool name args) w
    = (Returned (errorEnvelope
                   ("Weather data not available for " ++ c
                      ++ ". Supported cities: New York, London, Tokyo, Paris, Sydney")),
       w).
Proof.
  intros W env w name args c Hn Hc Hk H1 H2.
  unfold Weather.callTool. rewrite (valueAt_string_truthy _ _ _ Hc). cbn [negb].
  rewrite (weather_tryBlock_string_city name args c Hc).
  rewrite (getProp_mockWeatherData_miss _ Hk).
  rewrite objectPrototypeGet_lowercase; auto using toLowerCase_noCapital.
  cbn [In map Weather.toolList Mcp.name] in Hn.
  destruct Hn as [<- | [<- | []]]; reflexivity.
Qed.

Lemma unsupported_city_rejected_witness :
  (In "get_forecast" (map Mcp.name Weather.toolList)
   /\ valueAt (VObj [("city", VStr "Rome")]) "city" = VStr "Rome"
   /\ ~ In (toLowerCase "Rome") Weather.cityKeys
   /\ toLowerCase "Rome" <> "__proto__"
   /\ toLowerCase "Rome" <> "constructor")
  /\ run memory (Weather.callTool "get_forecast" (VObj [("city", VStr "Rome")])) sampleFiles
     = (Returned (errorEnvelope
                    "Weather data not available for Rome. Supported cities: New York, London, Tokyo, Paris, Sydney"),
        sampleFiles).
Proof.
  assert (Hk : ~ In (toLowerCase "Rome") Weather.cityKeys)
    by (simpl; intuition discriminate).
  assert (H1 : toLowerCase "Rome" <> "__proto__") by discriminate.
  assert (H2 : toLowerCase "Rome" <> "constructor") by discriminate.
  split; [repeat split; try assumption; simpl; tauto |].
  apply (unsupported_city_rejected Files memory sampleFiles "get_forecast"
           (VObj [("city", VStr "Rome")]) "Rome"); try assumption.
  - simpl; tauto.
  - reflexivity.
Defined.

Lemma buildForecast_truthy (currentWeather : Value) :
  truthy currentWeather = true ->
  exists forecast, Weather.buildForecast currentWeather = Ret forecast.
Proof.
  intros Ht. unfold Weather.buildForecast.
  rewrite !(getProp_truthy currentWeather _ Ht). cbn [lift bind]. eauto.
Qed.

Lemma weather_callTool_bad_city {W : Type} (env : Env W) (w : W)
    (name : string) (args : Value) :
  truthy args = true ->
  isString (valueAt args "city") = false ->
  exists m, forall name', run env (Weather.callTool name' args) w
                          = (Returned (errorEnvelope m), w).
Proof.
  intros Ht Hs. eexists. intros name'.
  unfold Weather.callTool, Weather.tryBlock. rewrite Ht. cbn [negb].
  rewrite run_tryCatch, run_lift_bind, (getProp_truthy args "city" Ht).
  rewrite run_lift_bind.
  instantiate (1 := cityTypeError (valueAt args "city")).
  destruct (valueAt args "city"); try discriminate Hs; reflexivity.
Qed.

(** X11.  [get_weather] and [get_forecast] accept exactly the same
    requests: on the same arguments either both fail, with the same error
    envelope, or both succeed. *)
Theorem weather_tools_accept_alike :
  forall (W : Type) (env : Env W) (w : W) (args : Value),
    (exists m, fst (run env (Weather.callTool "get_weather" args) w)
               = Returned (errorEnvelope m)
               /\ fst (run env (Weather.callTool "get_forecast" args) w)
                  = Returned (errorEnvelope m))
    \/ (exists r1 r2, fst (run env (Weather.callTool "get_weather" args) w) = Returned r1
                      /\ fst (run env (Weather.callTool "get_forecast" args) w)
                         = Returned r2
                      /\ isError r1 = None /\ isError r2 = None).
Proof.
  intros W env w args.
  destruct (truthy args) eqn:Ht.
  2: { left. exists "No arguments provided". unfold Weather.callTool.
       rewrite Ht. split; reflexivity. }
  destruct (isString (valueAt args "city")) eqn:Hs.
  2: { left. destruct (weather_callTool_bad_city env w "get_weather" args Ht Hs)
         as (m & Hm).
       exists m. rewrite !Hm. split; reflexivity. }
  destruct (valueAt args "city") as [ | | | | | c | | | | ] eqn:Hc;
    try discriminate Hs.
  unfold Weather.callTool. rewrite Ht. cbn [negb].
  rewrite !(weather_tryBlock_string_city _ args c Hc).
  cbn [String.eqb Ascii.eqb Bool.eqb].
  rewrite getProp_mockWeatherData. cbn [lift bind].
  destruct (truthy (valueAt Weather.mockWeatherData (toLowerCase c))) eqn:Hw;
    cbn [negb].
  - right. destruct (buildForecast_truthy _ Hw) as (forecast & ->).
    eexists _, _. repeat split; reflexivity.
  - left. eexists. split; reflexivity.
Qed.

(** X12.  Every city the mock data displays is accepted in its displayed
    spelling: the [city] field of each record lower-cases to the key the
    record is stored under, so feeding it back to [get_weather] returns
    that very record. *)
Theorem displayed_city_is_accepted :
  forall (W : Type) (env : Env W) (w : W) (key : string) (rec : Value),
    In (key, rec) mockEntries ->
    (exists c, displayedCity rec = VStr c /\ toLowerCase c = key)
    /\ run env (Weather.callTool "get_weather" (VObj [("city", displayedCity rec)])) w
       = (Returned (success (Json rec)), w).
Proof.
  intros W env w key rec H.
  unfold mockEntries, Weather.mockWeatherData in H. cbn [In] in H.
  destruct H as [H | [H | [H | [H | [H | []]]]]]; inversion H; subst;
    (split; [eexists; split; reflexivity | reflexivity]).
Qed.

Lemma displayed_city_is_accepted_witness :
  In ("tokyo", Weather.record "Tokyo" 25 "C" "Sunny" 55 8) mockEntries
  /\ run memory (Weather.callTool "get_weather" (VObj [("city", VStr "Tokyo")])) sampleFiles
     = (Returned (success (Json (Weather.record "Tokyo" 25 "C" "Sunny" 55 8))),
        sampleFiles).
Proof.
  assert (H : In ("tokyo", Weather.record "Tokyo" 25 "C" "Sunny" 55 8) mockEntries)
    by (simpl; tauto).
  split; [exact H |].
  apply (displayed_city_is_accepted Files memory sampleFiles "tokyo" _ H).
Defined.

(** X13.  Start-up asks for the transport first and writes to the
    diagnostic stream only afterwards.  If the connection is made, the one
    line written is the server's banner and the process serves; if it
    fails, the one line is [Fatal error:] with the error, and the process
    exits with code 1.  [start] itself never fails. *)
Theorem start_reports_then_serves_or_exits :
  forall (W : Type) (env : Env W) (w : W) (banner : string),
    match fst (settle env Connect w) with
    | Fulfilled _ =>
        fst (run env (start banner) w) = Returned Serving
        /\ trace env (start banner) w
           = [Performed Connect; Performed (ConsoleError banner None)]
    | Rejected e =>
        fst (run env (start banner) w) = Returned (Exited 1)
        /\ trace env (start banner) w
           = [Performed Connect; Performed (ConsoleError "Fatal error:" (Some e))]
    end.
Proof.
  intros W env w banner. unfold start, main, await. simpl.
  destruct (settle env Connect w) as [[[] | e] w1]; simpl.
  - destruct (settle env (ConsoleError banner None) w1) as [r w2].
    split; reflexivity.
  - destruct (settle env (ConsoleError "Fatal error:" (Some e)) w1) as [r w2].
    split; reflexivity.
Qed.

(** X14.  The handlers read [path] and [content] (filesystem) and [city]
    (weather) and nothing else: two argument objects that agree on these
    get the same answer, whatever further properties they carry. *)
Theorem other_arguments_ignored :
  forall (W : Type) (env : Env W) (w : W) (name : string) (args1 args2 : Value),
    truthy args1 = true -> truthy args2 = true ->
    (valueAt args1 "path" = valueAt args2 "path" ->
     valueAt args1 "content" = valueAt args2 "content" ->
     run env (Filesystem.callTool name args1) w
     = run env (Filesystem.callTool name args2) w)
    /\ (valueAt args1 "city" = valueAt args2 "city" ->
        run env (Weather.callTool name args1) w
        = run env (Weather.callTool name args2) w).
Proof.
  intros W env w name args1 args2 H1 H2. split.
  - intros Hp Hc. unfold Filesystem.callTool, Filesystem.tryBlock.
    rewrite H1, H2.
    rewrite !(getProp_truthy args1 _ H1), !(getProp_truthy args2 _ H2).
    rewrite Hp, Hc. reflexivity.
  - intros Hc. unfold Weather.callTool, Weather.tryBlock.
    rewrite H1, H2.
    rewrite !(getProp_truthy args1 _ H1), !(getProp_truthy args2 _ H2).
    rewrite Hc. reflexivity.
Qed.

Lemma other_arguments_ignored_witness :
  (truthy (VObj [("path", VStr "notes.txt")]) = true
   /\ truthy (VObj [("mode", VStr "binary"); ("path", VStr "notes.txt")]) = true)
  /\ run memory (Filesystem.callTool "read_file" (VObj [("path", VStr "notes.txt")]))
         sampleFiles
     = run memory (Filesystem.callTool "read_file"
                     (VObj [("mode", VStr "binary"); ("path", VStr "notes.txt")]))
           sampleFiles.
Proof.
  split; [split; reflexivity |].
  apply (other_arguments_ignored Files memory sampleFiles "read_file"
           (VObj [("path", VStr "notes.txt")])
           (VObj [("mode", VStr "binary"); ("path", VStr "notes.txt")])
           eq_refl eq_refl); reflexivity.
Defined.

(** The forecast of a record: today's entry is the record with [day] in
    front; the two others keep its city and unit, carry fixed conditions,
    and shift the numbers by fixed amounts, with no clamping. *)
Lemma forecast_of_record :
  forall (city unit conditions : string) (temperature humidity windSpeed : Z),
    Weather.buildForecast
      (Weather.record city temperature unit conditions humidity windSpeed)
    = Ret (VArr
             [ VObj [("day", VStr "Today"); ("city", VStr city);
                     ("temperature", VNum temperature); ("unit", VStr unit);
                     ("conditions", VStr conditions);
                     ("humidity", VNum humidity); ("windSpeed", VNum windSpeed)];
               VObj [("day", VStr "Tomorrow"); ("city", VStr city);
                     ("temperature", VNum (temperature + 2)); ("unit", VStr unit);
                     ("conditions", VStr "Partly cloudy");
                     ("humidity", VNum (humidity - 5));
                     ("windSpeed", VNum (windSpeed + 3))];
               VObj [("day", VStr "Day After Tomorrow"); ("city", VStr city);
                     ("temperature", VNum (temperature - 1)); ("unit", VStr unit);
                     ("conditions", VStr "Cloudy");
                     ("humidity", VNum (humidity + 10));
                     ("windSpeed", VNum (windSpeed - 2))] ]).
Proof.
  intros. reflexivity.
Qed.

(** X15.  [get_forecast] extends [get_weather]: for a city among the
    five keys, the first entry of the forecast is [day: Today] followed by
    exactly the properties [get_weather] returns for the same arguments,
    in the same order, and the two later entries report the same city and
    unit with temperature +2 and -1, humidity -5 and +10, wind speed +3
    and -2 against today's values. *)
Theorem forecast_extends_weather :
  forall (W : Type) (env : Env W) (w : W) (args : Value) (c : string),
    valueAt args "city" = VStr c ->
    In (toLowerCase c) Weather.cityKeys ->
    exists (city unit conditions : string) (temperature humidity windSpeed : Z),
      run env (Weather.callTool "get_weather" args) w
      = (Returned (success (Json (VObj
           [("city", VStr city); ("temperature", VNum temperature);
            ("unit", VStr unit); ("conditions", VStr conditions);
            ("humidity", VNum humidity); ("windSpeed", VNum windSpeed)]))), w)
      /\ run env (Weather.callTool "get_forecast" args) w
         = (Returned (success (Json (VArr
              [ VObj [("day", VStr "Today");
                      ("city", VStr city); ("temperature", VNum temperature);
                      ("unit", VStr unit); ("conditions", VStr conditions);
                      ("humidity", VNum humidity); ("windSpeed", VNum windSpeed)];
                VObj [("day", VStr "Tomorrow"); ("city", VStr city);
                      ("temperature", VNum (temperature + 2)); ("unit", VStr unit);
                      ("conditions", VStr "Partly cloudy");
                      ("humidity", VNum (humidity - 5));
                      ("windSpeed", VNum (windSpeed + 3))];
                VObj [("day", VStr "Day After Tomorrow"); ("city", VStr city);
                      ("temperature", VNum (temperature - 1)); ("unit", VStr unit);
                      ("conditions", VStr "Cloudy");
                      ("humidity", VNum (humidity + 10));
                      ("windSpeed", VNum (windSpeed - 2))] ]))), w).
Proof.
  intros W env w args c Hc Hk.
  unfold Weather.callTool. rewrite (valueAt_string_truthy _ _ _ Hc). cbn [negb].
  rewrite !(weather_tryBlock_string_city _ args c Hc).
  cbn [String.eqb Ascii.eqb Bool.eqb].
  cbn [In Weather.cityKeys] in Hk.
  destruct Hk as [K | [K | [K | [K | [K | []]]]]]; rewrite <- K;
    match goal with
    | |- context [getProp Weather.mockWeatherData ?k] =>
        let v := eval cbv in (getProp Weather.mockWeatherData k) in
        change (getProp Weather.mockWeatherData k) with v
    end;
    cbn [lift bind truthy negb];
    match goal with
    | |- context [VObj [("city", VStr ?ci); ("temperature", VNum ?t);
                        ("unit", VStr ?u); ("conditions", VStr ?co);
                        ("humidity", VNum ?h); ("windSpeed", VNum ?ws)]] =>
        exists ci, u, co, t, h, ws;
        change (VObj [("city", VStr ci); ("temperature", VNum t);
                      ("unit", VStr u); ("conditions", VStr co);
                      ("humidity", VNum h); ("windSpeed", VNum ws)])
          with (Weather.record ci t u co h ws);
        rewrite forecast_of_record
    end;
    split; reflexivity.
Qed.

Lemma forecast_extends_weather_witness :
  (valueAt (VObj [("city", VStr "SYDNEY")]) "city" = VStr "SYDNEY"
   /\ In (toLowerCase "SYDNEY") Weather.cityKeys)
  /\ exists (city unit conditions : string) (temperature humidity windSpeed : Z),
       run memory (Weather.callTool "get_weather" (VObj [("city", VStr "SYDNEY")]))
           sampleFiles
       = (Returned (success (Json (VObj
            [("city", VStr city); ("temperature", VNum temperature);
             ("unit", VStr unit); ("conditions", VStr conditions);
             ("humidity", VNum humidity); ("windSpeed", VNum windSpeed)]))),
          sampleFiles)
       /\ run memory (Weather.callTool "get_forecast" (VObj [("city", VStr "SYDNEY")]))
              sampleFiles
          = (Returned (success (Json (VArr
               [ VObj [("day", VStr "Today");
                       ("city", VStr city); ("temperature", VNum temperature);
                       ("unit", VStr unit); ("conditions", VStr conditions);
                       ("humidity", VNum humidity); ("windSpeed", VNum windSpeed)];
                 VObj [("day", VStr "Tomorrow"); ("city", VStr city);
                       ("temperature", VNum (temperature + 2)); ("unit", VStr unit);
                       ("conditions", VStr "Partly cloudy");
                       ("humidity", VNum (humidity - 5));
                       ("windSpeed", VNum (windSpeed + 3))];
                 VObj [("day", VStr "Day After Tomorrow"); ("city", VStr city);
                       ("temperature", VNum (temperature - 1)); ("unit", VStr unit);
                       ("conditions", VStr "Cloudy");
                       ("humidity", VNum (humidity + 10));
                       ("windSpeed", VNum (windSpeed - 2))] ]))), sampleFiles).
Proof.
  assert (Hk : In (toLowerCase "SYDNEY") Weather.cityKeys) by (simpl; tauto).
  split; [split; [reflexivity | exact Hk] |].
  apply (forecast_extends_weather Files memory sampleFiles
           (VObj [("city", VStr "SYDNEY")]) "SYDNEY" eq_refl Hk).
Defined.
